(** * flamaster: account resources, resource decorators, multilingual overlay

    A shallow embedding of [flamaster/core/decorators.py],
    [flamaster/account/__init__.py] and [flamaster/account/api.py].

    Python values are embedded as [pyval]; every Python [dict] that the
    code reads or writes (the Flask session, request bodies, cleaned data,
    response mappings) is a [gmap string pyval].  Code that raises is
    embedded in the result type [res]; code that also reads or writes the
    database or the session runs in the state-and-exception monad [Py]. *)

From stdpp Require Import gmap strings list fin_maps pretty.

Set Warnings "-register-all,-clear-no-such-hyp,-level-tolerance".
Open Scope string_scope.

(** ** Python values *)

(** JSON-shaped Python values: [None], [bool], [int], [unicode], [list]
    and [dict] with string keys.  Floats are not represented. *)
Inductive pyval :=
| PNone
| PBool (b : bool)
| PInt (z : Z)
| PStr (s : string)
| PList (l : list pyval)
| PDict (d : gmap string pyval).

Abbreviation pydict := (gmap string pyval).

(** Truth value of an object, as used by [if], [and], [or] and [not]. *)
Definition truthy (v : pyval) : bool :=
  match v with
  | PNone => false
  | PBool b => b
  | PInt z => negb (Z.eqb z 0)
  | PStr s => negb (String.eqb s "")
  | PList l => match l with [] => false | _ => true end
  | PDict d => negb (Nat.eqb (size d) 0)
  end.

(** [a or b] *)
Definition py_or (a b : pyval) : pyval := if truthy a then a else b.

Definition bool_to_Z (b : bool) : Z := if b then 1%Z else 0%Z.

(** [a == b] on JSON-shaped values ([True == 1] and [False == 0] as in
    Python; a [dict] equals a [dict] with the same keys and equal values). *)
Fixpoint py_eqb (a b : pyval) {struct a} : bool :=
  match a, b with
  | PNone, PNone => true
  | PBool x, PBool y => Bool.eqb x y
  | PBool x, PInt y => Z.eqb (bool_to_Z x) y
  | PInt x, PBool y => Z.eqb x (bool_to_Z y)
  | PInt x, PInt y => Z.eqb x y
  | PStr x, PStr y => String.eqb x y
  | PList l1, PList l2 =>
      (fix go (xs ys : list pyval) : bool :=
         match xs, ys with
         | [], [] => true
         | x :: xs', y :: ys' => py_eqb x y && go xs' ys'
         | _, _ => false
         end) l1 l2
  | PDict d1, PDict d2 =>
      Nat.eqb (size d1) (size d2) &&
      map_fold (λ k v acc,
                acc && match d2 !! k with
                       | Some v' => py_eqb v v'
                       | None => false
                       end) true d1
  | _, _ => false
  end.

(** ** Exceptions and results *)

Inductive exn :=
| DataError (error : pyval)      (* trafaret.DataError(error) *)
| HTTPException (code : Z)       (* raised by flask.abort(code) *)
| KeyError (key : string)
| AttributeError (name : string)
| TypeError
| IndexError
| RuntimeError.

(** [DataError.as_dict]: the error mapping (or message) carried by the
    exception.  Nested [DataError] values are kept in their [as_dict] form. *)
Definition DataError_as_dict (error : pyval) : pyval := error.

Inductive res (A : Type) :=
| Ret (a : A)
| Raise (e : exn).
Arguments Ret {A} a.
Arguments Raise {A} e.

Global Instance res_ret : MRet res := @Ret.
Global Instance res_bind : MBind res :=
  λ A B f m, match m with Ret a => f a | Raise e => Raise e end.

(** A [unicode] string is held as its UTF-8 encoding.  In UTF-8 every byte
    but a continuation byte (10xxxxxx) starts a code point. *)
Definition is_continuation (c : Ascii.ascii) : bool :=
  match c with
  | Ascii.Ascii _ _ _ _ _ _ b6 b7 => b7 && negb b6
  end.

(** [len(s)] of a [unicode] string: the number of its code points (as
    Python counts them on a UCS-4 build), not of the bytes that encode
    them. *)
Fixpoint unicode_len (s : string) : nat :=
  match s with
  | EmptyString => 0
  | String c s' =>
      if is_continuation c then unicode_len s' else S (unicode_len s')
  end.

(** [len(x)] *)
Definition py_len (v : pyval) : res nat :=
  match v with
  | PStr s => Ret (unicode_len s)
  | PList l => Ret (length l)
  | PDict d => Ret (size d)
  | _ => Raise TypeError
  end.

(** [d[k]] on a dict. *)
Definition getitem (d : pydict) (k : string) : res pyval :=
  match d !! k with
  | Some v => Ret v
  | None => Raise (KeyError k)
  end.

(** [d.get(k)] *)
Definition dict_get (d : pydict) (k : string) : pyval :=
  default PNone (d !! k).

(** [k in d] *)
Definition contains (d : pydict) (k : string) : bool :=
  bool_decide (is_Some (d !! k)).

(** [d1.update(d2)]: the entries of [d2] win. *)
Definition dict_update (d1 d2 : pydict) : pydict := d2 ∪ d1.

(** ** flamaster.core.http *)

(** Modelled from the spec: the module [flamaster.core.http] holds the
    status constants and is not among the sources; the constants carry the
    HTTP status codes of their names (400 BAD_REQUEST, 401 UNAUTHORIZED,
    204 NO_CONTENT, ...). *)
Module http.
Definition CREATED : Z := 201.
Definition ACCEPTED : Z := 202.
Definition NO_CONTENT : Z := 204.
Definition BAD_REQUEST : Z := 400.
Definition UNAUTHORIZED : Z := 401.
Definition NOT_FOUND : Z := 404.
End http.

(** [flask.abort(code)] *)
Definition abort {A} (code : Z) : res A := Raise (HTTPException code).

(** ** core/decorators.py: [api_resource] *)

(** A Python class used as a URL converter type ([int] in the sources).
    Its [__name__] is an identifier, hence never empty. *)
Record pytype := { name_head : Ascii.ascii; name_tail : string }.

Definition __name__ (T : pytype) : string := String (name_head T) (name_tail T).

(** The view function produced by [resource_class().as_view(endpoint)]. *)
Record View := { view_class : string; view_endpoint : string }.

Definition as_view (resource_class endpoint : string) : View :=
  {| view_class := resource_class; view_endpoint := endpoint |}.

(** One call of [Blueprint.add_url_rule(rule, view_func=, methods=)]. *)
Record UrlRule := { rule : string; view_func : View; methods : list string }.

(** A blueprint is the sequence of its registered rules. *)
Abbreviation Blueprint := (list UrlRule).

Definition add_url_rule (bp : Blueprint) (r : string) (v : View)
    (ms : list string) : Blueprint :=
  (bp ++ [ {| rule := r; view_func := v; methods := ms |} ])%list.

(** [pk_def[pk] and pk_def[pk].__name__ or None] *)
Definition pk_type_name (t : option pytype) : option string :=
  match t with
  | None => None
  | Some T => if truthy (PStr (__name__ T)) then Some (__name__ T) else None
  end.

(** [api_resource(bp, endpoint, pk_def)] evaluates [pk_def.keys()[0]] and
    returns the class decorator [wrapper]; [wrapper] registers two rules on
    the blueprint and returns the class.  [pk_def] lists the items of the
    dict in key order. *)
Definition api_resource (bp : Blueprint) (endpoint : string)
    (pk_def : list (string * option pytype))
  : res (string → Blueprint * string) :=
  match pk_def with
  | [] => Raise IndexError
  | (pk, ty) :: _ =>
      let pk_type := pk_type_name ty in
      let url := "/" +:+ endpoint +:+ "/" in
      let collection_methods := ["GET"; "POST"] in
      let item_methods := ["GET"; "PUT"; "DELETE"] in
      Ret (λ resource_class,
           let resource := as_view resource_class endpoint in
           let bp1 := add_url_rule bp url resource collection_methods in
           let url_rule :=
             match pk_type with
             | None => url +:+ "<" +:+ pk +:+ ">"
             | Some n => url +:+ "<" +:+ n +:+ ":" +:+ pk +:+ ">"
             end in
           let bp2 := add_url_rule bp1 url_rule resource item_methods in
           (bp2, resource_class))
  end.

(** ** core/decorators.py: [multilingual] *)

(** What the interpreter and the request-bound proxies provide. *)
Class Builtins := {
  (** [unicode(x)]; on a unicode string it is the string itself *)
  unicode : pyval → string;
}.

(** The part of [flask.request] read by [_get_locale]. *)
Record Request := {
  args : gmap string string;    (* request.args *)
  json : pyval;                 (* request.json, None when there is no JSON body *)
  data : string;                (* request.data, the raw body *)
  url_root : string;            (* request.url_root *)
}.

(** The context a property is evaluated in: the bound request, if any, and
    the answer of [flask.ext.babel.get_locale()]. *)
Record Context := {
  request : option Request;
  get_locale : pyval;
}.

(** [key in obj] followed by [obj[key]] for a JSON-shaped [obj]: a dict
    answers by key; a list or a string that contains the key cannot be
    indexed by it; numbers and booleans are not iterable. *)
Definition json_lookup (obj : pyval) (key : string) : res (option pyval) :=
  match obj with
  | PDict d => Ret (d !! key)
  | PList l => if existsb (py_eqb (PStr key)) l then Raise TypeError else Ret None
  | PStr s => match String.index 0 key s with
              | Some _ => Raise TypeError
              | None => Ret None
              end
  | _ => Raise TypeError
  end.

(** Outside a request the proxies raise [RuntimeError], which is passed
    over; [lang] is the result of [unicode], never [None], so the fallback
    to [BABEL_DEFAULT_LOCALE] is not reached. *)
Definition _get_locale `{Builtins} (ctx : Context) : res string :=
  let lang := unicode (get_locale ctx) in
  match request ctx with
  | None => Ret lang                         (* RuntimeError: pass *)
  | Some rq =>
      match args rq !! "_lang" with
      | Some l => Ret l
      | None =>
          if truthy (json rq) then
            found ← json_lookup (json rq) "_lang";
            match found with
            | Some v => Ret (unicode v)
            | None => Ret lang
            end
          else Ret lang
      end
  end.

(** A row of the shadow table generated for a model: the reference to the
    parent row, the locale, and one column per unicode column of the
    parent.  A column that was never assigned reads as [None]. *)
Record Localized := {
  parent_id : option nat;
  locale : string;
  columns : pydict;
}.

(** The shadow table in primary-key order; a row is identified by its
    position. *)
Abbreviation LocalizedTable := (list Localized).

(** [localized(parent=self, locale=lang)] *)
Definition localized (self_id : nat) (lang : string) : Localized :=
  {| parent_id := Some self_id; locale := lang; columns := ∅ |}.

Definition getattr (instance : Localized) (field : string) : pyval :=
  dict_get (columns instance) field.

Definition setattr (instance : Localized) (field : string) (value : pyval)
  : Localized :=
  {| parent_id := parent_id instance;
     locale := locale instance;
     columns := <[field := value]> (columns instance) |}.

(** The criterion of [filter_by(parent_id=self.id, locale=lang)]. *)
Definition filter_by (self_id : nat) (lang : string) (r : Localized) : Prop :=
  parent_id r = Some self_id ∧ locale r = lang.

Global Instance filter_by_dec self_id lang r : Decision (filter_by self_id lang r).
Proof. unfold filter_by. apply _. Defined.

(** [localized.query.filter_by(parent_id=self.id, locale=lang).first()],
    with the position of the row. *)
Definition first (self_id : nat) (lang : string) (t : LocalizedTable)
  : option (nat * Localized) :=
  list_find (filter_by self_id lang) t.

(** The property getter.  [self_id] is the primary key of the parent,
    which is persisted.  Model instances are truthy, so
    [instance and x or None] is [x or None] when a row is found. *)
Definition getter `{Builtins} (field : string) (ctx : Context) (self_id : nat)
    (t : LocalizedTable) : res pyval :=
  lang ← _get_locale ctx;
  match first self_id lang t with
  | None => Ret PNone
  | Some (_, instance) => Ret (py_or (getattr instance field) PNone)
  end.

(** The property setter: [instance.save()] writes the loaded row back in
    place, or inserts the new row. *)
Definition setter `{Builtins} (field : string) (ctx : Context) (self_id : nat)
    (value : pyval) (t : LocalizedTable) : res LocalizedTable :=
  lang ← _get_locale ctx;
  match first self_id lang t with
  | Some (i, from_db) => Ret (<[i := setattr from_db field value]> t)
  | None => Ret (t ++ [setattr (localized self_id lang) field value])%list
  end.

(** The value of the SQL expression of the hybrid property: the scalar
    subquery selecting the column of the row with the parent and locale. *)
Definition expression `{Builtins} (field : string) (ctx : Context)
    (self_id : nat) (t : LocalizedTable) : res pyval :=
  lang ← _get_locale ctx;
  match first self_id lang t with
  | None => Ret PNone
  | Some (_, instance) => Ret (getattr instance field)
  end.

(** One assignment [parent.field = value] made in some request context. *)
Record Write := {
  w_ctx : Context;
  w_self : nat;
  w_field : string;
  w_value : pyval;
}.

(** A sequence of assignments; one that raises leaves the table as it was. *)
Definition apply_write `{Builtins} (t : LocalizedTable) (w : Write)
  : LocalizedTable :=
  match setter (w_field w) (w_ctx w) (w_self w) (w_value w) t with
  | Ret t' => t'
  | Raise _ => t
  end.

Definition apply_writes `{Builtins} (ws : list Write) (t : LocalizedTable)
  : LocalizedTable :=
  foldl apply_write t ws.

(** The (parent, locale) pair of a row. *)
Definition row_key (r : Localized) : option nat * string :=
  (parent_id r, locale r).

(** No two rows share their (parent, locale) pair. *)
Definition one_row_per_key (t : LocalizedTable) : Prop :=
  NoDup (row_key <$> t).

(** ** The persisted state *)

(** Rows of the models that [account/api.py] looks into.  Tables map the
    primary key to the row; an instance held by a handler is the key of its
    row, so a change made through an instance is a change of the row. *)
Record User := {
  u_email : string;
  u_password : string;          (* the stored hash *)
  u_active : bool;
  u_first_name : pyval;
  u_roles : list Z;             (* keys of the roles of the user *)
}.

Record Customer := {
  c_user_id : option Z;         (* None: an anonymous customer *)
  c_columns : pydict;           (* profile and billing columns *)
}.

Record Cart := {
  k_customer_id : Z;
  k_columns : pydict;
}.

Inductive Model := MUser | MRole | MCustomer | MAddress | MBankAccount.

Record World := {
  users : gmap Z User;
  roles : gmap Z pydict;
  customers : gmap Z Customer;
  carts : gmap Z Cart;
  addresses : gmap Z pydict;
  bank_accounts : gmap Z pydict;
  session : pydict;             (* flask.session *)
  current_user : option Z;      (* flask.ext.security.current_user; None: anonymous *)
}.

Definition set_users (f : gmap Z User → gmap Z User) (w : World) : World :=
  {| users := f (users w); roles := roles w; customers := customers w;
     carts := carts w; addresses := addresses w;
     bank_accounts := bank_accounts w; session := session w;
     current_user := current_user w |}.

Definition set_customers (f : gmap Z Customer → gmap Z Customer) (w : World)
  : World :=
  {| users := users w; roles := roles w; customers := f (customers w);
     carts := carts w; addresses := addresses w;
     bank_accounts := bank_accounts w; session := session w;
     current_user := current_user w |}.

Definition set_carts (f : gmap Z Cart → gmap Z Cart) (w : World) : World :=
  {| users := users w; roles := roles w; customers := customers w;
     carts := f (carts w); addresses := addresses w;
     bank_accounts := bank_accounts w; session := session w;
     current_user := current_user w |}.

Definition set_session (f : pydict → pydict) (w : World) : World :=
  {| users := users w; roles := roles w; customers := customers w;
     carts := carts w; addresses := addresses w;
     bank_accounts := bank_accounts w; session := f (session w);
     current_user := current_user w |}.

(** ** The monad of handlers: state and exceptions *)

(** A computation reads and writes the world and returns or raises; what
    was written before an exception stays written. *)
Definition Py (A : Type) : Type := World → res A * World.

Global Instance Py_ret : MRet Py := λ A a w, (Ret a, w).
Global Instance Py_bind : MBind Py :=
  λ A B f m w,
    match m w with
    | (Ret a, w') => f a w'
    | (Raise e, w') => (Raise e, w')
    end.

Definition lift {A} (r : res A) : Py A := λ w, (r, w).
Definition raise {A} (e : exn) : Py A := λ w, (Raise e, w).
Definition gets {A} (f : World → A) : Py A := λ w, (Ret (f w), w).
Definition modify (f : World → World) : Py unit := λ w, (Ret tt, f w).

(** [try: body except t.DataError as e: handler(e)] *)
Definition try_DataError {A} (body : Py A) (handler : pyval → Py A) : Py A :=
  λ w,
    match body w with
    | (Raise (DataError e), w') => handler e w'
    | r => r
    end.

(** [try: body except Exception: handler()] *)
Definition try_except {A} (body : Py A) (handler : Py A) : Py A :=
  λ w,
    match body w with
    | (Raise _, w') => handler w'
    | r => r
    end.

(** ** Responses *)

Record Response := { body : pyval; status : Z }.

(** Modelled from the spec: [flamaster.core.utils.jsonify_status_code] is
    not among the sources; it builds the JSON response carrying the given
    body and HTTP status. *)
Definition jsonify_status_code (data : pyval) (code : Z) : Response :=
  {| body := data; status := code |}.

(** ** Queries *)

(** [Model.query.get(pk)]: a key that is not an int finds no row. *)
Definition query_get {A} (table : gmap Z A) (pk : pyval) : option (Z * A) :=
  match pk with
  | PInt z => (λ r, (z, r)) <$> table !! z
  | _ => None
  end.

(** [Model.query.get_or_404(pk)] *)
Definition get_or_404 {A} (table : gmap Z A) (pk : pyval) : res (Z * A) :=
  match query_get table pk with
  | Some r => Ret r
  | None => abort http.NOT_FOUND
  end.

(** The rows of the users with the given email, in key order of the
    table: [User.query.filter_by(email=email).all()]. *)
Definition users_by_email (w : World) (email : pyval) : list (Z * User) :=
  match email with
  | PStr s => filter (λ r, u_email r.2 = s) (map_to_list (users w))
  | _ => []
  end.

(** ** Collaborators outside the sources *)

(** The validation dicts declared in [account/api.py]. *)
Inductive Schema :=
| SessionValidation
| ProfilePutValidation
| AddressValidation
| RoleValidation
| BankAccountValidation
| CustomerValidation.

(** What a [KeysSubset] callback returns per key: a checked value or a
    [DataError]. *)
Inductive checked :=
| Value (v : pyval)
| Error (error : pyval).

(** A user object as [ProfileResource.serialize] sees it. *)
Record UserView := {
  is_anonymous : bool;
  uv_id : pyval;
  uv_is_superuser : bool;
  uv_attr : string → pyval;           (* getattr(instance, name) *)
  uv_columns : list string;           (* the fields as_dict exports by default *)
  uv_customer_shop_id : option pyval; (* instance.customer.shop_id, None without customer *)
  billing_address : option pydict;    (* instance.billing_address.as_dict() *)
  delivery_address : option pydict;   (* instance.delivery_address.as_dict() *)
}.

(** The libraries (trafaret, Flask-Security, Flask-Principal, Flask-Babel)
    and the flamaster modules that are not among the sources
    ([core.models], [core.resources], [core.utils], [account.models],
    [product.models]), as the handlers call them. *)
Class External := {
  (** [validation.check(data)] of a validation dict: the cleaned mapping or
      a [DataError] *)
  check : Schema → pyval → res pydict;
  (** the same for a dict with a [KeysSubset] key, given its callback *)
  check_keys_subset :
    Schema → (pydict → res (gmap string checked)) → pyval → res pydict;
  json_loads : string → res pyval;
  lazy_gettext : string → string;
  requires_confirmation : User → bool;
  verify_password : pyval → string → bool;
  encrypt_password : pyval → res pyval;
  (** [login_user(user, remember)] *)
  login_user : Z → bool → World → World;
  logout_user : World → World;
  (** [identity_changed.send(app, identity=AnonymousIdentity())] *)
  identity_changed_send : World → World;
  register_user : pyval → pyval → World → World;
  (** [(expired, invalid, user)] *)
  reset_password_token_status : pyval → World → bool * bool * option Z;
  generate_reset_password_token : Z → World → string;
  confirm_email_token_status : pyval → World → bool * bool * option Z;
  confirm_user : Z → World → World;
  send_email : string → string → string → pydict → World → World;
  reset_password_instructions_sent : Z → string → World → World;
  (** [User.is_unique(email)] *)
  is_unique : pyval → World → bool;
  (** [user.is_superuser()], also answered by the anonymous user *)
  is_superuser : World → option Z → bool;
  (** the criterion of the query [Cart.for_customer(customer)] *)
  for_customer : Z → Customer → Cart → bool;
  (** [instance.check_owner(user)] of a bank account *)
  check_owner : World → Z → option Z → bool;
  null_fields_filter : list string → pyval → pyval;
  (** [ModelResource.get_object(id)] *)
  model_get_object : Model → pyval → World → res Z * World;
  (** [Model.create], [instance.update] and [instance.save] of [CRUDMixin] *)
  model_create : Model → pydict → World → res Z * World;
  model_update : Model → Z → pydict → World → res unit * World;
  model_save : Model → Z → World → World;
  (** [ModelResource.serialize(instance)] *)
  model_serialize : Model → Z → World → pydict;
  (** [customer.set_address(address, type)] *)
  set_address : Z → Z → pyval → World → World;
  user_view : World → option Z → UserView;
}.

(** What a handler reads from the request-bound proxies. *)
Record Env := {
  e_request : Request;
  g_user : option Z;            (* flask.g.user; None: the anonymous user *)
  language : pyval;             (* get_locale().language *)
}.

(** [_security.datastore.find_user(email=email)] *)
Definition find_user (w : World) (email : pyval) : option (Z * User) :=
  head (users_by_email w email).

(** The customers of a user, in key order. *)
Definition customers_of (w : World) (uid : Z) : list (Z * Customer) :=
  filter (λ r, c_user_id r.2 = Some uid) (map_to_list (customers w)).

(** Modelled from the spec: the relationship [User.customer] is declared in
    [account/models.py], which is not among the sources; each User has at
    most one Customer, and [user.customer] is the Customer whose [user_id]
    is the key of the user, [None] when there is none. *)
Definition user_customer (w : World) (uid : Z) : option (Z * Customer) :=
  head (customers_of w uid).

(** [obj.id] of a possibly missing object. *)
Definition id_of {A} (o : option (Z * A)) : res Z :=
  match o with
  | Some (k, _) => Ret k
  | None => Raise (AttributeError "id")
  end.

(** [Query.update({'customer_id': cid})] on the selected rows of the carts. *)
Definition carts_update (select : Cart → bool) (cid : Z) (w : World) : World :=
  set_carts (fmap (λ k, if select k
                        then {| k_customer_id := cid; k_columns := k_columns k |}
                        else k)) w.

(** Modelled from the spec: [CRUDMixin.delete] is declared in
    [core/models.py], which is not among the sources; it removes the row
    of the instance. *)
Definition customer_delete (cid : Z) (w : World) : World :=
  set_customers (base.delete cid) w.

(** [session.pop(key, None)] *)
Definition session_pop (key : string) : Py pyval :=
  λ w, (Ret (dict_get (session w) key), set_session (base.delete key) w).

(** [session[key] = value] *)
Definition session_set (key : string) (value : pyval) : Py unit :=
  modify (set_session (insert key value)).

(** [login_required]: the wrapped function runs for an authenticated user. *)
Definition login_required {A} (fn : Py A) : Py A :=
  cu ← gets current_user;
  match cu with
  | None => lift (abort http.UNAUTHORIZED)
  | Some _ => fn
  end.

(** [method_wrapper(http_status)(meth)]: [meth] receives the JSON body as
    [data]. *)
Definition method_wrapper (http_status : Z) (meth : pyval → Py pyval)
    (env : Env) : Py Response :=
  try_DataError
    (data ← (if truthy (json (e_request env))
             then mret (json (e_request env))
             else lift (abort http.BAD_REQUEST));
     r ← meth data;
     mret (jsonify_status_code r http_status))
    (λ e, mret (jsonify_status_code (DataError_as_dict e) http.BAD_REQUEST)).

(** [x is None] *)
Definition is_none (v : pyval) : bool :=
  match v with PNone => true | _ => false end.

(** [for key in keys: body(key)] *)
Fixpoint for_each {A B} (body : A → Py B) (keys : list A) : Py unit :=
  match keys with
  | [] => mret tt
  | k :: ks => body k ;; for_each body ks
  end.

(** A dict with one entry holding a translated message. *)
Definition message `{External} (field msg : string) : pyval :=
  PDict {[ field := PStr (lazy_gettext msg) ]}.

(** ** account/api.py: [SessionResource] *)

Module SessionResource.
Section methods.
Context `{External}.

Definition clean (data_dict : pyval) : res pydict :=
  check SessionValidation data_dict.

Definition _get_response (env : Env) (kwargs : pydict) : Py pydict :=
  s ← gets session;
  sid ← lift (getitem s "id");
  cu ← gets current_user;
  su ← gets (λ w, is_superuser w cu);
  let response : pydict :=
    <[ "system_language" :=
         py_or (dict_get s "system_language") (language env) ]>
    (<[ "uid" := dict_get s "user_id" ]>
    (<[ "is_anonymous" := PBool (bool_decide (cu = None)) ]>
    {[ "id" := sid ]})) in
  let response :=
    if bool_decide (cu ≠ None) && su
    then <[ "data_language" :=
              py_or (dict_get s "data_language") (language env) ]> response
    else response in
  mret (dict_update response kwargs).

Definition _authenticate (data_dict : pydict) : Py pydict :=
  email ← lift (getitem data_dict "email");
  found ← gets (λ w, find_user w email);
  match found with
  | None =>
      raise (DataError
               (message "email" "Can't find anyone with this credentials"))
  | Some (uid, user) =>
      if requires_confirmation user then
        raise (DataError (message "email" "You must confirm the email"))
      else if negb (u_active user) then
        raise (DataError
                 (message "email" "You are blocked by the administrator"))
      else if verify_password (dict_get data_dict "password")
                (u_password user) then
        if requires_confirmation user then
          raise (DataError (message "email" "You must confirm the email"))
        else if negb (u_active user) then
          raise (DataError
                   (message "email" "You are blocked by the administrator"))
        else
          modify (login_user uid false) ;;
          (* Get cart items from anonymous customer *)
          customer_id ← gets (λ w, dict_get (session w) "customer_id");
          (if negb (is_none customer_id) then
             customer ← gets (λ w, query_get (customers w) customer_id);
             match customer with
             | Some (cid, c) =>
                 if bool_decide (c_user_id c = None) then
                   own ← gets (λ w, user_customer w uid);
                   own_id ← lift (id_of own);
                   modify (carts_update (for_customer cid c) own_id) ;;
                   modify (customer_delete cid)
                 else mret tt
             | None => mret tt
             end
           else mret tt) ;;
          own ← gets (λ w, user_customer w uid);
          own_id ← lift (id_of own);
          session_set "customer_id" (PInt own_id) ;;
          mret data_dict
      else
        raise (DataError (message "password" "Wrong password"))
  end.

Definition post (env : Env) : Py Response :=
  r ← try_DataError
        (data ← lift (clean (json (e_request env)));
         email ← lift (getitem data "email");
         unique ← gets (is_unique email);
         if negb unique then
           raise (DataError (message "email" "This email is already taken"))
         else
           modify (register_user email
                     (default (PStr "*") (data !! "password"))) ;;
           response ← _get_response env ∅;
           mret (PDict response, http.CREATED))
        (λ e, mret (DataError_as_dict e, http.BAD_REQUEST));
  mret (jsonify_status_code r.1 r.2).

Definition __change_password (password confirm_password token : pyval)
  : Py Response :=
  st ← gets (reset_password_token_status token);
  let '(expired, invalid, user) := st in
  if invalid || expired then
    mret (jsonify_status_code (message "token" "Wrong token")
            http.BAD_REQUEST)
  else if negb (py_eqb password confirm_password) then
    mret (jsonify_status_code
            (message "confirm_password" "Passwords do not match")
            http.BAD_REQUEST)
  else
    match user with
    | None => raise (AttributeError "update")
    | Some uid =>
        model_update MUser uid {[ "password" := password ]} ;;
        modify (login_user uid false) ;;
        mret (jsonify_status_code (PDict {[ "status" := PStr "success" ]})
                http.ACCEPTED)
    end.

Definition __reset_password (env : Env) (email : pyval) : Py Response :=
  user ← gets (λ w, users_by_email w email);
  match user with
  | (uid, u) :: _ =>
      token ← gets (generate_reset_password_token uid);
      let url := "reset_password/" +:+ token in
      let reset_link := url_root (e_request env) +:+ url in
      let params : pydict :=
        <[ "user" := py_or (u_first_name u) (PStr (u_email u)) ]>
        {[ "reset_link" := PStr reset_link ]} in
      modify (send_email "Reset password" (u_email u) "reset_password"
                params) ;;
      modify (reset_password_instructions_sent uid token) ;;
      mret (jsonify_status_code (PDict {[ "status" := PStr "success" ]})
              http.ACCEPTED)
  | [] =>
      mret (jsonify_status_code (message "email" "This email is not found")
              http.NOT_FOUND)
  end.

Definition put (env : Env) (id : pyval) : Py Response :=
  match clean (json (e_request env)) with
  | Raise (DataError e) =>
      mret (jsonify_status_code (DataError_as_dict e) http.BAD_REQUEST)
  | Raise e => raise e
  | Ret cleaned_data =>
      let password := dict_get cleaned_data "password" in
      let confirm_password := dict_get cleaned_data "confirm_password" in
      let token := dict_get cleaned_data "token" in
      if negb (is_none confirm_password) && negb (is_none token) then
        __change_password password confirm_password token
      else
        let reset := default (PBool false) (cleaned_data !! "reset") in
        let cleaned_data := base.delete "reset" cleaned_data in
        if truthy reset then
          email ← lift (getitem cleaned_data "email");
          __reset_password env email
        else
          failed ← try_DataError
                     (_authenticate cleaned_data ;; mret None)
                     (λ e, mret (Some e));
          match failed with
          | Some e =>
              mret (jsonify_status_code (DataError_as_dict e) http.BAD_REQUEST)
          | None =>
              response ← _get_response env ∅;
              mret (jsonify_status_code (PDict response) http.ACCEPTED)
          end
  end.

Definition delete (env : Env) (id : pyval) : Py Response :=
  for_each session_pop ["identity.name"; "identity.auth_type"; "customer_id"] ;;
  modify identity_changed_send ;;
  modify logout_user ;;
  response ← _get_response env ∅;
  mret (jsonify_status_code (PDict response) http.NO_CONTENT).
End methods.
End SessionResource.

(** ** account/api.py: [ProfileResource] *)

(** Modelled from the spec: [CRUDMixin.as_dict(include, exclude)] is
    declared in [core/models.py], which is not among the sources; it
    projects the instance to the mapping of its fields, those of [include]
    added and those of [exclude] left out. *)
Definition exported (columns include exclude : list string) : list string :=
  filter (λ f, f ∉ exclude) (columns ++ include)%list.

(** Modelled from the spec: [CRUDMixin.as_dict] (see [exported]) maps
    each exported field to the attribute of the instance. *)
Definition model_as_dict (instance : UserView) (include exclude : list string)
  : pydict :=
  list_to_map ((λ f, (f, uv_attr instance f))
                 <$> exported (uv_columns instance) include exclude).

Module ProfileResource.
Section methods.
Context `{External}.

Definition post : Py Response := raise TypeError.

Definition get_object (env : Env) (id : pyval) : Py (option Z) :=
  let rq := json (e_request env) in
  tok ← (if truthy rq then lift (json_lookup rq "token") else mret None);
  match tok with
  | Some token =>
      st ← gets (confirm_email_token_status token);
      let '(expired, invalid, instance) := st in
      match instance with
      | None => raise (AttributeError "confirmed_at")
      | Some uid =>
          modify (confirm_user uid) ;;
          modify (model_save MUser uid) ;;
          modify (login_user uid true) ;;
          mret (Some uid)
      end
  | None =>
      cu ← gets current_user;
      su ← gets (λ w, is_superuser w cu);
      if (su : bool) then
        us ← gets users;
        r ← lift (get_or_404 us id);
        mret (Some r.1)
      else mret (g_user env)
  end.

Definition _cmp_pwds (value : pydict) : res (gmap string checked) :=
  if negb (contains value "password") && negb (contains value "confirmation")
  then Ret (Value <$> value)
  else
    p ← getitem value "password";
    n ← py_len p;
    if Nat.ltb n 6 then
      Ret {[ "password" :=
               Error (PStr (lazy_gettext
                 "Passwords should be more than 6 symbols length")) ]}
    else
      c ← getitem value "confirmation";
      if negb (py_eqb p c) then
        Ret {[ "confirmation" :=
                 Error (PStr (lazy_gettext "Passwords doesn't match")) ]}
      else
        e ← encrypt_password p;
        Ret {[ "password" := Value e ]}.

(** [user.has_role(role)]; the anonymous user has no role. *)
Definition has_role (w : World) (user : option Z) (role : Z) : bool :=
  match user with
  | Some uid =>
      match users w !! uid with
      | Some u => bool_decide (role ∈ u_roles u)
      | None => false
      end
  | None => false
  end.

(** [user.roles.append(role)]; the role list of the anonymous user is
    immutable. *)
Definition roles_append (user : option Z) (role : Z) : Py unit :=
  match user with
  | Some uid =>
      modify (set_users (alter (λ u,
        {| u_email := u_email u; u_password := u_password u;
           u_active := u_active u; u_first_name := u_first_name u;
           u_roles := (u_roles u ++ [role])%list |}) uid))
  | None => raise TypeError
  end.

Definition _change_role (env : Env) (id : pyval) (value : pydict)
  : Py pydict :=
  user ← get_object env id;
  if contains value "role_id" then
    role_id ← lift (getitem value "role_id");
    rs ← gets roles;
    role ← lift (get_or_404 rs role_id);
    has ← gets (λ w, has_role w user role.1);
    if (has : bool) then mret value
    else
      cu ← gets current_user;
      su ← gets (λ w, is_superuser w cu);
      if (su : bool) then roles_append user role.1 ;; mret value
      else lift (abort 403)
  else mret value.

(** [self.clean(data)] with the validation set by
    [set_put_validation_dict(id)]: the dict with the [KeysSubset] key bound
    to [_cmp_pwds], then the appended converter [_change_role(id)]. *)
Definition clean (env : Env) (id : pyval) (data : pyval) : Py pydict :=
  value ← lift (check_keys_subset ProfilePutValidation _cmp_pwds data);
  _change_role env id value.

Definition __add_address_prefix (address : option pydict) (prefix : string)
  : pydict :=
  match address with
  | None => ∅
  | Some a =>
      list_to_map ((λ kv, (prefix +:+ "_" +:+ kv.1, kv.2)) <$> map_to_list a)
  end.

Definition serialize (g_user instance : UserView) : pydict :=
  let exclude := ["password"] in
  let include := ["first_name"; "last_name"; "created_at"; "phone";
                  "current_login_at"; "active"; "billing_address";
                  "delivery_address"; "logged_at"; "is_superuser";
                  "birth_date"; "fax"; "company"; "gender"; "id"] in
  if is_anonymous g_user || is_anonymous instance then
    model_as_dict instance include exclude
  else
    let lists :=
      if negb (py_eqb (uv_id g_user) (uv_id instance))
         && negb (uv_is_superuser g_user)
      then (include, exclude ++ ["email"])%list
      else (include ++ ["email"], exclude)%list in
    let response := model_as_dict instance lists.1 lists.2 in
    let response :=
      match uv_customer_shop_id instance with
      | Some shop_id => <[ "shop_id" := shop_id ]> response
      | None => response
      end in
    let response :=
      dict_update response
        (__add_address_prefix (billing_address instance) "billing") in
    dict_update response
      (__add_address_prefix (delivery_address instance) "delivery").

Definition put (env : Env) (id : pyval) : Py Response :=
  data ← (if truthy (json (e_request env))
          then mret (json (e_request env))
          else lift (abort http.BAD_REQUEST));
  let NULL_FIELDS := ["phone"; "fax"; "company"] in
  let data := null_fields_filter NULL_FIELDS data in
  r ← try_DataError
        (data ← clean env id data;
         instance ← get_object env id;
         match instance with
         | None => raise (AttributeError "update")
         | Some uid =>
             model_update MUser uid data ;;
             response ← gets (λ w, serialize (user_view w (g_user env))
                                     (user_view w instance));
             mret (PDict response, http.ACCEPTED)
         end)
        (λ e, mret (DataError_as_dict e, http.BAD_REQUEST));
  mret (jsonify_status_code r.1 r.2).
End methods.
End ProfileResource.

(** ** account/api.py: the [_request_data] and [_customer] helpers *)

Section helpers.
Context `{External}.

(** [_request_data] of [AddressResource] and [CustomerResource]: a
    [DataError] is raised again, anything else raised aborts. *)
Definition _request_data (schema : Schema) (env : Env) : res pydict :=
  let rq := e_request env in
  match (data ← (if truthy (json rq) then Ret (json rq)
                 else json_loads (data rq));
         check schema data) with
  | Ret cleaned => Ret cleaned
  | Raise (DataError e) => Raise (DataError e)
  | Raise _ => abort http.BAD_REQUEST
  end.

(** [_customer] of [AddressResource] and [CustomerResource]. *)
Definition _customer : Py (option (Z * Customer)) :=
  cu ← gets current_user;
  match cu with
  | None =>
      customer_id ← gets (λ w, dict_get (session w) "customer_id");
      if negb (is_none customer_id)
      then gets (λ w, query_get (customers w) customer_id)
      else lift (abort http.BAD_REQUEST)
  | Some uid => gets (λ w, user_customer w uid)
  end.

(** [obj.attr] of a possibly missing instance. *)
Definition instance_of {A} (attr : string) (o : option (Z * A)) : Py Z :=
  match o with
  | Some (k, _) => mret k
  | None => raise (AttributeError attr)
  end.
End helpers.

(** ** account/api.py: [AddressResource] *)

Module AddressResource.
Section methods.
Context `{External}.

Definition post (env : Env) : Py Response :=
  r ← try_DataError
        (data ← lift (_request_data AddressValidation env);
         let address_type := default PNone (data !! "type") in
         let data := base.delete "type" data in
         address ← model_create MAddress data;
         customer ← _customer;
         cid ← instance_of "set_address" customer;
         modify (set_address cid address address_type) ;;
         modify (model_save MCustomer cid) ;;
         response ← gets (model_serialize MAddress address);
         mret (PDict response, http.CREATED))
        (λ e, mret (DataError_as_dict e, http.BAD_REQUEST));
  mret (jsonify_status_code r.1 r.2).
End methods.
End AddressResource.

(** ** account/api.py: [BankAccountResource] *)

Module BankAccountResource.
Section methods.
Context `{External}.

(** [self.clean(data)] is inherited from [core/resources.py]; as
    [SessionResource.clean] it hands the data to [validation.check]. *)
Definition post (env : Env) : Py Response :=
  data ← (if truthy (json (e_request env))
          then mret (json (e_request env))
          else lift (abort http.BAD_REQUEST));
  r ← try_DataError
        (data ← lift (check BankAccountValidation data);
         cu ← gets current_user;
         match cu with
         | None => raise (AttributeError "id")
         | Some uid =>
             let data := <[ "user_id" := PInt uid ]> data in
             instance ← model_create MBankAccount data;
             response ← gets (model_serialize MBankAccount instance);
             mret (PDict response, http.CREATED)
         end)
        (λ e, mret (DataError_as_dict e, http.BAD_REQUEST));
  mret (jsonify_status_code r.1 r.2).

Definition get_object (id : pyval) : Py Z :=
  instance ← model_get_object MBankAccount id;
  cu ← gets current_user;
  owner ← gets (λ w, check_owner w instance cu);
  su ← gets (λ w, is_superuser w cu);
  if owner || su then mret instance
  else lift (abort http.UNAUTHORIZED).

(** [get_objects]: the model is set, so the first line does not abort;
    the result is the query [self.model.query.filter_by(kwargs)], given
    by its criteria per column. *)
Definition get_objects (env : Env) (kwargs : pydict) : Py pydict :=
  let kwargs :=
    match args (e_request env) !! "user_id" with
    | Some v => <[ "user_id" := PStr v ]> kwargs
    | None => kwargs
    end in
  cu ← gets current_user;
  su ← gets (λ w, is_superuser w cu);
  if negb su then
    match cu with
    | Some uid => mret (<[ "user_id" := PInt uid ]> kwargs)
    | None => raise (AttributeError "id")
    end
  else mret kwargs.
End methods.
End BankAccountResource.

(** ** account/api.py: [CustomerResource] *)

Module CustomerResource.
Section methods.
Context `{External}.

Definition post (env : Env) : Py Response :=
  r ← try_DataError
        (data ← lift (_request_data CustomerValidation env);
         customer ← _customer;
         cid ← instance_of "update" customer;
         model_update MCustomer cid data ;;
         response ← gets (model_serialize MCustomer cid);
         mret (PDict response, http.CREATED))
        (λ e, mret (DataError_as_dict e, http.BAD_REQUEST));
  mret (jsonify_status_code r.1 r.2).

Definition put (env : Env) (id : pyval) : Py Response :=
  r ← try_DataError
        (data ← lift (_request_data CustomerValidation env);
         instance ← model_get_object MCustomer id;
         model_update MCustomer instance data ;;
         response ← gets (model_serialize MCustomer instance);
         mret (PDict response, http.ACCEPTED))
        (λ e, mret (DataError_as_dict e, http.BAD_REQUEST));
  mret (jsonify_status_code r.1 r.2).
End methods.
End CustomerResource.

(** ** The POST and PUT handlers of [account/api.py] *)

Inductive Handler :=
| SessionPost
| SessionPut (id : pyval)
| ProfilePut (id : pyval)
| AddressPost
| BankAccountPost
| CustomerPost
| CustomerPut (id : pyval).

Section handlers.
Context `{External}.

Definition run (h : Handler) (env : Env) : Py Response :=
  match h with
  | SessionPost => SessionResource.post env
  | SessionPut id => SessionResource.put env id
  | ProfilePut id => ProfileResource.put env id
  | AddressPost => AddressResource.post env
  | BankAccountPost => BankAccountResource.post env
  | CustomerPost => CustomerResource.post env
  | CustomerPut id => CustomerResource.put env id
  end.

(** The check of the request body against the validation dict of the
    handler, as the handler calls it. *)
Definition schema_check (h : Handler) (env : Env) : res pydict :=
  let body := json (e_request env) in
  match h with
  | SessionPost | SessionPut _ => SessionResource.clean body
  | ProfilePut _ =>
      check_keys_subset ProfilePutValidation ProfileResource._cmp_pwds
        (null_fields_filter ["phone"; "fax"; "company"] body)
  | AddressPost => _request_data AddressValidation env
  | BankAccountPost => check BankAccountValidation body
  | CustomerPost | CustomerPut _ => _request_data CustomerValidation env
  end.

(** The validation step of the handler: the check and the converters
    appended to the validation dict. *)
Definition validation (h : Handler) (env : Env) : Py pydict :=
  match h with
  | ProfilePut id =>
      ProfileResource.clean env id
        (null_fields_filter ["phone"; "fax"; "company"]
           (json (e_request env)))
  | _ => lift (schema_check h env)
  end.

(** The handlers that start with [request.json or abort(BAD_REQUEST)]. *)
Definition guards_body (h : Handler) : bool :=
  match h with
  | ProfilePut _ | BankAccountPost => true
  | _ => false
  end.
End handlers.

(** ** Notions used in the statements *)

Definition collection_url (endpoint : string) : string :=
  "/" +:+ endpoint +:+ "/".

Definition collection_rule (endpoint resource_class : string) : UrlRule :=
  {| rule := collection_url endpoint;
     view_func := as_view resource_class endpoint;
     methods := ["GET"; "POST"] |}.

Definition item_rule (endpoint pk : string) (ty : option pytype)
    (resource_class : string) : UrlRule :=
  {| rule := match ty with
             | None => collection_url endpoint +:+ "<" +:+ pk +:+ ">"
             | Some T =>
                 collection_url endpoint +:+ "<" +:+ __name__ T +:+ ":" +:+ pk +:+ ">"
             end;
     view_func := as_view resource_class endpoint;
     methods := ["GET"; "PUT"; "DELETE"] |}.

(** The session keys that [SessionResource.delete] pops. *)
Definition logout_keys : list string :=
  ["identity.name"; "identity.auth_type"; "customer_id"].

(** A cart as [Cart.for_customer(customer).update] leaves it. *)
Definition reassigned `{External} (cid : Z) (c : Customer) (own : Z)
    (k : Cart) : Cart :=
  if for_customer cid c k
  then {| k_customer_id := own; k_columns := k_columns k |}
  else k.

(** The request body holds no 'token': [request.json and 'token' in
    request.json] is falsy. *)
Definition no_token (env : Env) : Prop :=
  truthy (json (e_request env)) = true →
  json_lookup (json (e_request env)) "token" = Ret None.

(** ** core/decorators.py: [crm_language] *)

(** The instance handed to a wrapped serializer: a document read with
    [instance.get(field)], and its language [instance._lang]. *)
Record Document := {
  doc_fields : pydict;
  _lang : string;
}.

(** [type(v) in (unicode, str)] *)
Definition is_text (v : pyval) : bool :=
  match v with PStr _ => true | _ => false end.

(** [obj[key]] for a string key: only a dict can be indexed by it. *)
Definition subscript (obj : pyval) (key : string) : res pyval :=
  match obj with
  | PDict d => getitem d key
  | _ => Raise TypeError
  end.

(** [key in obj] for a string key. *)
Definition py_in (key : string) (obj : pyval) : res bool :=
  match obj with
  | PDict d => Ret (contains d key)
  | PList l => Ret (existsb (py_eqb (PStr key)) l)
  | PStr s => Ret (match String.index 0 key s with Some _ => true | None => false end)
  | _ => Raise TypeError
  end.

(** The body of the loop of [crm_language] for one field of [i18n]. *)
Definition crm_language_field (instance : Document) (data : pydict)
    (field : string) : res pydict :=
  let field_val := dict_get (doc_fields instance) field in
  blank ← (if negb (is_none field_val) then
             v ← subscript field_val (_lang instance);
             Ret (negb (is_text v))
           else Ret false);
  if (blank : bool) then Ret (<[ field := PStr "" ]> data)
  else
    field_val ← getitem data field;
    if negb (is_text field_val) then
      present ← py_in (_lang instance) field_val;
      if (present : bool) then Ret data else Ret (<[ field := PStr "" ]> data)
    else Ret data.

(** [for field in i18n: ...], the data threaded through. *)
Fixpoint crm_language_loop (instance : Document) (i18n : list string)
    (data : pydict) : res pydict :=
  match i18n with
  | [] => Ret data
  | field :: rest =>
      data' ← crm_language_field instance data field;
      crm_language_loop instance rest data'
  end.

(** [crm_language(serialize)(obj, instance, include)]; [i18n] is
    [obj.model.i18n], [None] when the model declares none. *)
Definition crm_language {O I : Type} (serialize : O → Document → I → res pydict)
    (i18n : O → option (list string)) (obj : O) (instance : Document)
    (include : I) : res pydict :=
  data ← serialize obj instance include;
  match i18n obj with
  | Some fields =>
      crm_language_loop instance (filter (λ field, contains data field = true) fields)
        data
  | None => Ret data
  end.

(** ** A concrete interpretation of the collaborators

    Used to run the embedding on examples: a checker for dicts of required
    keys, plain-text password comparison, tables updated in place. *)

Module Fixture.

(** [unicode] on scalars; containers are abbreviated. *)
Definition scalar_unicode (v : pyval) : string :=
  match v with
  | PStr s => s
  | PNone => "None"
  | PBool true => "True"
  | PBool false => "False"
  | PInt z => pretty z
  | PList _ => "[]"
  | PDict _ => "{}"
  end.

Definition builtins : Builtins := {| unicode := scalar_unicode |}.

Definition required_keys (s : Schema) : list string :=
  match s with
  | SessionValidation => []
  | ProfilePutValidation => ["first_name"; "last_name"; "phone"; "fax"; "company"]
  | AddressValidation =>
      ["country_id"; "city"; "street"; "zip_code"; "gender"; "phone"]
  | RoleValidation => ["name"]
  | BankAccountValidation => ["bank_name"; "iban"; "swift"]
  | CustomerValidation => ["first_name"; "last_name"; "email"; "gender"]
  end.

(** A dict passes when every required key is present; the error maps
    each missing key to its message. *)
Definition required_check (s : Schema) (v : pyval) : res pydict :=
  match v with
  | PDict d =>
      match filter (λ k, contains d k = false) (required_keys s) with
      | [] => Ret d
      | missing =>
          Raise (DataError
                   (PDict (list_to_map
                             ((λ k, (k, PStr "is required")) <$> missing))))
      end
  | _ => Raise (DataError (PStr "value is not dict"))
  end.

Definition error_of (c : checked) : option pyval :=
  match c with Error e => Some e | Value _ => None end.

Definition value_of (c : checked) : option pyval :=
  match c with Value v => Some v | Error _ => None end.

(** The keys of the subset go to the callback, the other keys to
    [required_check]; the errors of both are raised together. *)
Definition subset_check (s : Schema)
    (callback : pydict → res (gmap string checked)) (v : pyval)
  : res pydict :=
  match v with
  | PDict d =>
      let subset := ["password"; "confirmation"] in
      let sub := filter (λ kv, kv.1 ∈ subset) d in
      let rest := filter (λ kv, kv.1 ∉ subset) d in
      r ← callback sub;
      let errors : pydict := omap error_of r in
      let values : pydict := omap value_of r in
      match required_check s (PDict rest) with
      | Ret cleaned =>
          if Nat.eqb (size errors) 0 then Ret (values ∪ cleaned)
          else Raise (DataError (PDict errors))
      | Raise (DataError (PDict e)) => Raise (DataError (PDict (errors ∪ e)))
      | Raise e => Raise e
      end
  | _ => Raise (DataError (PStr "value is not dict"))
  end.

Definition set_current_user (cu : option Z) (w : World) : World :=
  {| users := users w; roles := roles w; customers := customers w;
     carts := carts w; addresses := addresses w;
     bank_accounts := bank_accounts w; session := session w;
     current_user := cu |}.

Definition set_bank_accounts (f : gmap Z pydict → gmap Z pydict) (w : World)
  : World :=
  {| users := users w; roles := roles w; customers := customers w;
     carts := carts w; addresses := addresses w;
     bank_accounts := f (bank_accounts w); session := session w;
     current_user := current_user w |}.

Definition set_addresses (f : gmap Z pydict → gmap Z pydict) (w : World)
  : World :=
  {| users := users w; roles := roles w; customers := customers w;
     carts := carts w; addresses := f (addresses w);
     bank_accounts := bank_accounts w; session := session w;
     current_user := current_user w |}.

Definition login (uid : Z) (remember : bool) (w : World) : World :=
  set_current_user (Some uid)
    (set_session (insert "user_id" (PInt uid)) w).

(** [logout_user] of Flask-Login removes 'user_id' from the session and
    makes the current user anonymous. *)
Definition logout (w : World) : World :=
  set_current_user None (set_session (base.delete "user_id") w).

Definition token_status (token : pyval) (w : World)
  : bool * bool * option Z :=
  match query_get (users w) token with
  | Some (uid, _) => (false, false, Some uid)
  | None => (false, true, None)
  end.

(** The role with key 1 is the administrator role. *)
Definition has_admin_role (w : World) (cu : option Z) : bool :=
  ProfileResource.has_role w cu 1.

Definition owns (w : World) (instance : Z) (cu : option Z) : bool :=
  match bank_accounts w !! instance, cu with
  | Some row, Some uid => py_eqb (dict_get row "user_id") (PInt uid)
  | _, _ => false
  end.

Definition table_of (m : Model) (w : World) : gmap Z pydict :=
  match m with
  | MRole => roles w
  | MAddress => addresses w
  | MBankAccount => bank_accounts w
  | MCustomer => c_columns <$> customers w
  | MUser => ∅
  end.

Definition get_row (m : Model) (id : pyval) (w : World)
  : res Z * World :=
  (r ← get_or_404 (table_of m w) id; Ret r.1, w).

Definition fresh {A} (t : gmap Z A) : Z := Z.of_nat (size t) + 1.

Definition create_row (m : Model) (data : pydict) (w : World)
  : res Z * World :=
  match m with
  | MAddress =>
      (Ret (fresh (addresses w)),
       set_addresses (insert (fresh (addresses w)) data) w)
  | MBankAccount =>
      (Ret (fresh (bank_accounts w)),
       set_bank_accounts (insert (fresh (bank_accounts w)) data) w)
  | _ => (Raise TypeError, w)
  end.

Definition update_row (m : Model) (k : Z) (data : pydict) (w : World)
  : res unit * World :=
  match m with
  | MCustomer =>
      (Ret tt,
       set_customers (alter (λ c, {| c_user_id := c_user_id c;
                                     c_columns := data ∪ c_columns c |}) k) w)
  | _ => (Ret tt, w)
  end.

Definition view (w : World) (who : option Z) : UserView :=
  match who ≫= λ uid, (λ u, (uid, u)) <$> users w !! uid with
  | Some (uid, u) =>
      {| is_anonymous := false;
         uv_id := PInt uid;
         uv_is_superuser := has_admin_role w (Some uid);
         uv_attr := λ f,
           if String.eqb f "id" then PInt uid
           else if String.eqb f "email" then PStr (u_email u)
           else if String.eqb f "password" then PStr (u_password u)
           else if String.eqb f "active" then PBool (u_active u)
           else if String.eqb f "first_name" then u_first_name u
           else PNone;
         uv_columns := ["id"; "email"; "password"; "active"; "first_name"];
         uv_customer_shop_id :=
           (λ r, dict_get (c_columns r.2) "shop_id") <$> user_customer w uid;
         billing_address := None;
         delivery_address := None |}
  | None =>
      {| is_anonymous := true; uv_id := PNone; uv_is_superuser := false;
         uv_attr := λ _, PNone; uv_columns := [];
         uv_customer_shop_id := None;
         billing_address := None; delivery_address := None |}
  end.

Definition external : External := {|
  check := required_check;
  check_keys_subset := subset_check;
  json_loads := λ s, if String.eqb s "{}" then Ret (PDict ∅) else Raise TypeError;
  lazy_gettext := λ s, s;
  requires_confirmation := λ _, false;
  verify_password := λ p h, py_eqb p (PStr h);
  encrypt_password := λ p,
    match p with
    | PStr s => Ret (PStr ("hash:" +:+ s))
    | _ => Raise TypeError
    end;
  login_user := login;
  logout_user := logout;
  identity_changed_send := λ w, w;
  register_user := λ _ _ w, w;
  reset_password_token_status := token_status;
  generate_reset_password_token := λ _ _, "token";
  confirm_email_token_status := token_status;
  confirm_user := λ _ w, w;
  send_email := λ _ _ _ _ w, w;
  reset_password_instructions_sent := λ _ _ w, w;
  is_unique := λ email w,
    match users_by_email w email with [] => true | _ => false end;
  is_superuser := has_admin_role;
  for_customer := λ cid _ k, Z.eqb (k_customer_id k) cid;
  check_owner := owns;
  null_fields_filter := λ _ d, d;
  model_get_object := get_row;
  model_create := create_row;
  model_update := update_row;
  model_save := λ _ _ w, w;
  model_serialize := λ m k w, default ∅ (table_of m w !! k);
  set_address := λ _ _ _ w, w;
  user_view := view;
|}.

Definition admin : User :=
  {| u_email := "root@example.org"; u_password := "s3cret!";
     u_active := true; u_first_name := PStr "Root"; u_roles := [1%Z] |}.

Definition bob : User :=
  {| u_email := "bob@example.org"; u_password := "hunter22";
     u_active := true; u_first_name := PNone; u_roles := [] |}.

(** Two users, bob's customer 10 and the anonymous customer 11 of the
    session, one cart each, bob's bank account 5. *)
Definition world : World :=
  {| users := <[1%Z := admin]> {[ 2%Z := bob ]};
     roles := <[1%Z := {[ "name" := PStr "admin" ]}]>
                {[ 2%Z := {[ "name" := PStr "editor" ]} ]};
     customers :=
       <[10%Z := {| c_user_id := Some 2%Z;
                    c_columns := {[ "shop_id" := PInt 1 ]} |}]>
         {[ 11%Z := {| c_user_id := None; c_columns := ∅ |} ]};
     carts :=
       <[100%Z := {| k_customer_id := 11; k_columns := ∅ |}]>
         {[ 101%Z := {| k_customer_id := 10; k_columns := ∅ |} ]};
     addresses := ∅;
     bank_accounts :=
       {[ 5%Z := <[ "user_id" := PInt 2 ]> {[ "iban" := PStr "DE00" ]} ]};
     session :=
       <[ "id" := PStr "5f2c" ]>
         (<[ "customer_id" := PInt 11 ]> {[ "identity.name" := PInt 2 ]});
     current_user := None |}.

(** A request with the given JSON body. *)
Definition env_of (body : pyval) : Env :=
  {| e_request := {| args := ∅; json := body; data := "";
                     url_root := "http://shop.example.org/" |};
     g_user := None;
     language := PStr "de" |}.

(** The world with the administrator logged in, with bob logged in. *)
Definition admin_world : World := set_current_user (Some 1%Z) world.
Definition bob_world : World := set_current_user (Some 2%Z) world.

(** A profile update that also asks for the role with key 2. *)
Definition profile_body : pyval :=
  PDict (<[ "first_name" := PStr "Bob" ]>
         (<[ "last_name" := PStr "Builder" ]>
         (<[ "phone" := PStr "555" ]>
         (<[ "fax" := PStr "" ]>
         (<[ "company" := PStr "" ]>
         {[ "role_id" := PInt 2 ]}))))).

(** A bank account without IBAN and SWIFT code. *)
Definition bank_body : pyval := PDict {[ "bank_name" := PStr "Sparkasse" ]}.

Definition credentials : pydict :=
  <[ "email" := PStr "bob@example.org" ]> {[ "password" := PStr "hunter22" ]}.

(** A request context outside any request, locale German. *)
Definition german : Context := {| request := None; get_locale := PStr "de" |}.

Definition writes : list Write :=
  [ {| w_ctx := german; w_self := 1; w_field := "title"; w_value := PStr "Hallo" |};
    {| w_ctx := german; w_self := 1; w_field := "teaser"; w_value := PStr "" |};
    {| w_ctx := german; w_self := 2; w_field := "title"; w_value := PStr "Welt" |} ].

(** Bob's email with a wrong password; the administrator's credentials. *)
Definition wrong_credentials : pydict :=
  <[ "email" := PStr "bob@example.org" ]> {[ "password" := PStr "guess" ]}.

Definition admin_credentials : pydict :=
  <[ "email" := PStr "root@example.org" ]> {[ "password" := PStr "s3cret!" ]}.

(** The world with a session that names no customer. *)
Definition plain_world : World :=
  set_session (base.delete "customer_id") world.

(** A product document with a translated title and an untranslated
    teaser, read in German, and its serialized form. *)
Definition document : Document :=
  {| doc_fields :=
       <[ "title" := PDict (<[ "de" := PStr "Hallo" ]> {[ "en" := PStr "Hello" ]}) ]>
       {[ "teaser" := PDict {[ "de" := PNone ]} ]};
     _lang := "de" |}.

Definition document_data : pydict :=
  <[ "title" := PStr "Hallo" ]>
  (<[ "teaser" := PNone ]> {[ "price" := PInt 5 ]}).

Definition serialize_document (obj : unit) (instance : Document) (include : pyval)
  : res pydict := Ret document_data.

(** An address for the anonymous caller. *)
Definition address_body : pyval :=
  PDict (<[ "country_id" := PInt 1 ]>
         (<[ "city" := PStr "Kiel" ]>
         (<[ "street" := PStr "Kai 1" ]>
         (<[ "zip_code" := PStr "24103" ]>
         (<[ "gender" := PStr "f" ]>
         (<[ "type" := PStr "billing" ]>
         {[ "phone" := PStr "555" ]})))))).

(** A complete bank account, once claiming another owner. *)
Definition account : pydict :=
  <[ "bank_name" := PStr "Sparkasse" ]>
  (<[ "iban" := PStr "DE00" ]> {[ "swift" := PStr "NOLADE21" ]}).

Definition account_body : pyval := PDict account.

Definition forged_account_body : pyval :=
  PDict (<[ "user_id" := PInt 1 ]> account).

(** A user with both addresses. *)
Definition resident : UserView :=
  {| is_anonymous := false; uv_id := PInt 2; uv_is_superuser := false;
     uv_attr := λ _, PNone; uv_columns := ["id"; "billing_city"];
     uv_customer_shop_id := None;
     billing_address := Some {[ "city" := PStr "Kiel" ]};
     delivery_address := Some {[ "city" := PStr "Bonn" ]} |}.

(** A request with '_lang' in the query string and a JSON number as body. *)
Definition french : Context :=
  {| request := Some {| args := {[ "_lang" := "fr" ]}; json := PInt 7;
                        data := ""; url_root := "" |};
     get_locale := PStr "de" |}.

(** A customer profile. *)
Definition customer_body : pyval :=
  PDict (<[ "first_name" := PStr "Ann" ]>
         (<[ "last_name" := PStr "Onym" ]>
         (<[ "email" := PStr "ann@example.org" ]>
         {[ "gender" := PStr "f" ]}))).

(** The world after [login_user] for bob: the session holds 'user_id'. *)
Definition logged_in_world : World := login 2 false world.

(** A request that names its locale in the JSON body. *)
Definition french_body : Context :=
  {| request := Some {| args := ∅; json := PDict {[ "_lang" := PStr "fr" ]};
                        data := ""; url_root := "" |};
     get_locale := PStr "de" |}.
End Fixture.

(** * Properties *)

(** ** Resource dispatch *)

(** C7: registering a resource class through [api_resource] with endpoint
    [E] and a primary-key definition whose first item is [(pk, ty)] adds
    exactly two rules to the blueprint: the collection URL "/E/" with the
    methods GET and POST, and the item URL (the collection URL followed by
    "<pk>" when [ty] is None and by "<T:pk>" when [ty] is the type named T)
    with the methods GET, PUT and DELETE; both rules carry the same view. *)
Theorem api_resource_rules (bp : Blueprint) (endpoint pk : string)
    (ty : option pytype) (rest : list (string * option pytype))
    (resource_class : string) :
  ∃ wrapper,
    api_resource bp endpoint ((pk, ty) :: rest) = Ret wrapper ∧
    wrapper resource_class =
      ((bp ++ [collection_rule endpoint resource_class;
               item_rule endpoint pk ty resource_class])%list, resource_class) ∧
    view_func (collection_rule endpoint resource_class) =
      view_func (item_rule endpoint pk ty resource_class).
Proof.
  eexists; split; [reflexivity|]. split; [|reflexivity].
  unfold add_url_rule, collection_rule, item_rule, collection_url, pk_type_name.
  rewrite <- app_assoc. destruct ty as [T|]; reflexivity.
Qed.

(** ** Multilingual field overlay *)

Section overlay.
Context `{Builtins}.

Lemma setattr_key (r : Localized) (field : string) (value : pyval) :
  row_key (setattr r field value) = row_key r.
Proof. reflexivity. Qed.

Lemma getattr_setattr (r : Localized) (field : string) (value : pyval) :
  getattr (setattr r field value) field = value.
Proof. unfold getattr, setattr, dict_get; simpl. by rewrite lookup_insert_eq. Qed.

(** After a write the first row of the pair is the row just written. *)
Lemma first_after_setter (field : string) (ctx : Context) (self_id : nat)
    (value : pyval) (t : LocalizedTable) (lang : string) :
  _get_locale ctx = Ret lang →
  ∃ t' i r,
    setter field ctx self_id value t = Ret t' ∧
    first self_id lang t' = Some (i, setattr r field value).
Proof.
  intros Hl. unfold setter. rewrite Hl. simpl.
  destruct (first self_id lang t) as [[i r]|] eqn:Hf.
  - exists (<[i := setattr r field value]> t), i, r. split; [done|].
    apply list_find_Some in Hf as (Hi & HP & Hlt).
    apply list_find_Some. split_and!.
    + apply list_lookup_insert_eq. by eapply lookup_lt_Some.
    + exact HP.
    + intros j y Hj Hji. rewrite list_lookup_insert_ne in Hj by lia. eauto.
  - exists (t ++ [setattr (localized self_id lang) field value])%list,
      (length t), (localized self_id lang). split; [done|].
    apply list_find_None in Hf.
    apply list_find_Some. split_and!.
    + rewrite lookup_app_r by lia. by rewrite Nat.sub_diag.
    + by split.
    + intros j y Hj Hlt. rewrite lookup_app_l in Hj by lia.
      eapply Forall_lookup_1 in Hf; eauto.
Qed.

(** Reading after writing under the same locale gives [value or None]. *)
Lemma getter_after_setter (field : string) (ctx ctx' : Context)
    (self_id : nat) (value : pyval) (t : LocalizedTable) (lang : string) :
  _get_locale ctx = Ret lang →
  _get_locale ctx' = Ret lang →
  ∃ t', setter field ctx self_id value t = Ret t' ∧
        getter field ctx' self_id t' = Ret (py_or value PNone) ∧
        expression field ctx' self_id t' = Ret value.
Proof.
  intros Hl Hl'.
  destruct (first_after_setter field ctx self_id value t lang Hl)
    as (t' & i & r & Hs & Hf).
  exists t'. split; [done|].
  unfold getter, expression. rewrite Hl'. simpl. rewrite Hf.
  by rewrite getattr_setattr.
Qed.

(** A value that is not falsy is read back as it was written. *)
Lemma getter_after_setter_truthy (field : string) (ctx ctx' : Context)
    (self_id : nat) (value : pyval) (t : LocalizedTable) (lang : string) :
  _get_locale ctx = Ret lang →
  _get_locale ctx' = Ret lang →
  truthy value = true →
  ∃ t', setter field ctx self_id value t = Ret t' ∧
        getter field ctx' self_id t' = Ret value.
Proof.
  intros Hl Hl' Hv.
  destruct (getter_after_setter field ctx ctx' self_id value t lang Hl Hl')
    as (t' & Hs & Hg & _).
  exists t'. split; [done|]. rewrite Hg. unfold py_or. by rewrite Hv.
Qed.

Lemma apply_write_keeps_keys (t : LocalizedTable) (w : Write) :
  one_row_per_key t → one_row_per_key (apply_write t w).
Proof.
  unfold one_row_per_key, apply_write, setter. intros Ht.
  destruct (_get_locale (w_ctx w)) as [lang|e]; simpl; [|done].
  destruct (first (w_self w) lang t) as [[i r]|] eqn:Hf.
  - apply list_find_Some in Hf as (Hi & _ & _).
    rewrite list_fmap_insert, setattr_key, list_insert_id; [done|].
    by rewrite list_lookup_fmap, Hi.
  - apply list_find_None in Hf. rewrite fmap_app. simpl.
    apply NoDup_app. split_and!; [done| |apply NoDup_singleton].
    intros k Hk Hin. apply list_elem_of_singleton in Hin. subst k.
    apply list_elem_of_fmap in Hk as (r & Hkey & Hr).
    rewrite Forall_forall in Hf. apply (Hf r Hr).
    unfold row_key in Hkey. simpl in Hkey. unfold filter_by.
    by inversion Hkey.
Qed.

Lemma apply_writes_keep_keys (ws : list Write) (t : LocalizedTable) :
  one_row_per_key t → one_row_per_key (apply_writes ws t).
Proof.
  unfold apply_writes. revert t.
  induction ws as [|w ws IH]; intros t Ht; simpl; [done|].
  apply IH. by apply apply_write_keeps_keys.
Qed.

(** What one write does to the rows. *)
Lemma apply_write_rows (t : LocalizedTable) (w : Write) (lang : string) :
  _get_locale (w_ctx w) = Ret lang →
  match first (w_self w) lang t with
  | Some (i, r) =>
      apply_write t w = <[i := setattr r (w_field w) (w_value w)]> t ∧
      row_key <$> apply_write t w = row_key <$> t
  | None =>
      ∃ r', apply_write t w = (t ++ [r'])%list ∧
            row_key r' = (Some (w_self w), lang)
  end.
Proof.
  intros Hl. unfold apply_write, setter. rewrite Hl. simpl.
  destruct (first (w_self w) lang t) as [[i r]|] eqn:Hf.
  - split; [done|]. apply list_find_Some in Hf as (Hi & _ & _).
    rewrite list_fmap_insert, setattr_key, list_insert_id; [done|].
    by rewrite list_lookup_fmap, Hi.
  - eexists. split; [done|]. reflexivity.
Qed.
End overlay.

(** C4: along every sequence of writes to localized attributes the shadow
    table keeps at most one row per (parent_id, locale) pair; a write whose
    pair has a row updates that row in place and leaves the pairs of the
    table as they were, a write whose pair has no row appends exactly one
    row carrying the pair. *)
Theorem setter_one_row_per_key `{Builtins} (ws : list Write)
    (t : LocalizedTable) :
  one_row_per_key t →
  one_row_per_key (apply_writes ws t) ∧
  ∀ (t0 : LocalizedTable) (w : Write) (lang : string),
    _get_locale (w_ctx w) = Ret lang →
    match first (w_self w) lang t0 with
    | Some (i, r) =>
        apply_write t0 w = <[i := setattr r (w_field w) (w_value w)]> t0 ∧
        row_key <$> apply_write t0 w = row_key <$> t0
    | None =>
        ∃ r', apply_write t0 w = (t0 ++ [r'])%list ∧
              row_key r' = (Some (w_self w), lang)
    end.
Proof.
  intros Ht. split.
  - by apply apply_writes_keep_keys.
  - intros t0 w lang Hl. by apply apply_write_rows.
Qed.

Lemma setter_one_row_per_key_witness :
  one_row_per_key [] ∧
  one_row_per_key (apply_writes (H := Fixture.builtins) Fixture.writes []).
Proof.
  split; [apply NoDup_nil_2|].
  apply (setter_one_row_per_key (H := Fixture.builtins) Fixture.writes []).
  apply NoDup_nil_2.
Defined.

(** C3: for every table, parent and locale, writing the empty string to a
    localized attribute and reading the attribute back under the same
    locale yields [None], not the string written, while the SQL expression
    of the same property yields the string. *)
Theorem getter_after_setter_blank `{Builtins} (field : string)
    (ctx ctx' : Context) (self_id : nat) (t : LocalizedTable) (lang : string) :
  _get_locale ctx = Ret lang →
  _get_locale ctx' = Ret lang →
  ∃ t', setter field ctx self_id (PStr "") t = Ret t' ∧
        getter field ctx' self_id t' = Ret PNone ∧
        expression field ctx' self_id t' = Ret (PStr "").
Proof.
  intros Hl Hl'.
  exact (getter_after_setter field ctx ctx' self_id (PStr "") t lang Hl Hl').
Qed.

Lemma getter_after_setter_blank_witness :
  ∃ t', setter (H := Fixture.builtins) "title" Fixture.german 1 (PStr "") [] = Ret t' ∧
        getter (H := Fixture.builtins) "title" Fixture.german 1 t' = Ret PNone ∧
        expression (H := Fixture.builtins) "title" Fixture.german 1 t' = Ret (PStr "").
Proof.
  apply (getter_after_setter_blank (H := Fixture.builtins) "title"
           Fixture.german Fixture.german 1 [] "de"); reflexivity.
Defined.

(** ** Serialization of profiles *)

Lemma fst_tagged {A} (g : string → A) (l : list string) :
  ((λ f, (f, g f)) <$> l).*1 = l.
Proof. induction l as [|x l IH]; simpl; [done | by f_equal]. Qed.

Lemma elem_of_dom_model_as_dict (v : UserView) (include exclude : list string)
    (k : string) :
  k ∈ dom (model_as_dict v include exclude) ↔
  (k ∈ uv_columns v ∨ k ∈ include) ∧ k ∉ exclude.
Proof.
  unfold model_as_dict, exported. rewrite dom_list_to_map_L.
  rewrite elem_of_list_to_set, fst_tagged.
  rewrite list_elem_of_filter, elem_of_app. tauto.
Qed.

Lemma elem_of_dom_address_prefix (address : option pydict) (prefix k : string) :
  k ∈ dom (ProfileResource.__add_address_prefix address prefix) →
  ∃ k', k = prefix +:+ "_" +:+ k'.
Proof.
  unfold ProfileResource.__add_address_prefix.
  destruct address as [a|]; [|by rewrite dom_empty_L, elem_of_empty].
  rewrite dom_list_to_map_L, elem_of_list_to_set, <- list_fmap_compose.
  intros ([k' x] & -> & _)%list_elem_of_fmap. by exists k'.
Qed.

Lemma prefixed_not_password (address : option pydict) (prefix : string) :
  prefix = "billing" ∨ prefix = "delivery" →
  "password" ∉ dom (ProfileResource.__add_address_prefix address prefix) ∧
  "email" ∉ dom (ProfileResource.__add_address_prefix address prefix).
Proof.
  intros Hp.
  split; intros [k' Hk]%elem_of_dom_address_prefix;
    destruct Hp as [-> | ->]; simpl in Hk; discriminate.
Qed.

(** Beyond the projection of the instance, the output only has the key
    'shop_id' and keys prefixed with 'billing_' or 'delivery_'. *)
Lemma serialize_known_user (g_user instance : UserView) (k : string) :
  is_anonymous g_user || is_anonymous instance = false →
  k = "password" ∨ k = "email" →
  ∃ lists,
    lists = (if negb (py_eqb (uv_id g_user) (uv_id instance))
                && negb (uv_is_superuser g_user)
             then (["first_name"; "last_name"; "created_at"; "phone";
                    "current_login_at"; "active"; "billing_address";
                    "delivery_address"; "logged_at"; "is_superuser";
                    "birth_date"; "fax"; "company"; "gender"; "id"],
                   ["password"; "email"])
             else (["first_name"; "last_name"; "created_at"; "phone";
                    "current_login_at"; "active"; "billing_address";
                    "delivery_address"; "logged_at"; "is_superuser";
                    "birth_date"; "fax"; "company"; "gender"; "id"; "email"],
                   ["password"])) ∧
    (k ∈ dom (ProfileResource.serialize g_user instance) ↔
     k ∈ dom (model_as_dict instance lists.1 lists.2)).
Proof.
  intros Ha Hk. eexists. split; [reflexivity|].
  pose proof (prefixed_not_password (billing_address instance) "billing"
                (or_introl eq_refl)) as [Hbp Hbe].
  pose proof (prefixed_not_password (delivery_address instance) "delivery"
                (or_intror eq_refl)) as [Hdp Hde].
  unfold ProfileResource.serialize. rewrite Ha. simpl.
  unfold dict_update. rewrite !dom_union_L, !elem_of_union.
  destruct (uv_customer_shop_id instance) as [shop_id|].
  - rewrite dom_insert_L, elem_of_union, elem_of_singleton.
    destruct Hk as [-> | ->]; split; intros; try tauto.
    all: destruct_or!; try done; try tauto.
  - destruct Hk as [-> | ->]; split; intros; try tauto.
    all: destruct_or!; try done; try tauto.
Qed.

(** C5: the output of [ProfileResource.serialize] never has the key
    'password'; when neither the caller nor the serialized instance is
    anonymous, it has the key 'email' exactly when the caller's id equals
    the instance's id or the caller is a superuser. *)
Theorem serialize_password_email (g_user instance : UserView) :
  "password" ∉ dom (ProfileResource.serialize g_user instance) ∧
  (is_anonymous g_user = false → is_anonymous instance = false →
   ("email" ∈ dom (ProfileResource.serialize g_user instance) ↔
    py_eqb (uv_id g_user) (uv_id instance) = true ∨
    uv_is_superuser g_user = true)).
Proof.
  split.
  - destruct (is_anonymous g_user || is_anonymous instance) eqn:Ha.
    + unfold ProfileResource.serialize. rewrite Ha.
      rewrite elem_of_dom_model_as_dict. intros [_ []]. set_solver.
    + destruct (serialize_known_user g_user instance "password" Ha
                  (or_introl eq_refl)) as (lists & -> & ->).
      rewrite elem_of_dom_model_as_dict. intros [_ []].
      destruct (negb _ && negb _); simpl; set_solver.
  - intros Hg Hi.
    assert (is_anonymous g_user || is_anonymous instance = false) as Ha
      by (by rewrite Hg, Hi).
    destruct (serialize_known_user g_user instance "email" Ha
                (or_intror eq_refl)) as (lists & -> & ->).
    rewrite elem_of_dom_model_as_dict.
    destruct (py_eqb (uv_id g_user) (uv_id instance)),
      (uv_is_superuser g_user); simpl.
    all: split; [|intros [|]; try discriminate].
    all: try (intros _; auto; fail).
    all: try (split; [right; set_solver | set_solver]).
    intros [_ []]. set_solver.
Qed.

Lemma serialize_password_email_witness :
  "email" ∈ dom (ProfileResource.serialize
                   (Fixture.view Fixture.world (Some 1%Z))
                   (Fixture.view Fixture.world (Some 2%Z))) ∧
  "email" ∉ dom (ProfileResource.serialize
                   (Fixture.view Fixture.world (Some 2%Z))
                   (Fixture.view Fixture.world (Some 1%Z))).
Proof.
  split.
  - apply (proj2 (serialize_password_email
                    (Fixture.view Fixture.world (Some 1%Z))
                    (Fixture.view Fixture.world (Some 2%Z))));
      [reflexivity | reflexivity | right; reflexivity].
  - intros Hin.
    apply (proj2 (serialize_password_email
                    (Fixture.view Fixture.world (Some 2%Z))
                    (Fixture.view Fixture.world (Some 1%Z))))
      in Hin as [Hin | Hin]; [discriminate Hin | discriminate Hin
                              | reflexivity | reflexivity].
Defined.

(** ** Running handlers *)

Ltac py_unfold :=
  unfold mbind, Py_bind, mret, Py_ret, gets, lift, modify, raise,
    session_set, session_pop.

Lemma bind_ret {A B} (m : Py A) (k : A → Py B) (w w' : World) (a : A) :
  m w = (Ret a, w') → (m ≫= k) w = k a w'.
Proof. intros Hm. unfold mbind, Py_bind. by rewrite Hm. Qed.

Lemma bind_raise {A B} (m : Py A) (k : A → Py B) (w w' : World) (e : exn) :
  m w = (Raise e, w') → (m ≫= k) w = (Raise e, w').
Proof. intros Hm. unfold mbind, Py_bind. by rewrite Hm. Qed.



(** ** Password change *)

(** C8: on a mapping that has the key 'confirmation' and not the key
    'password', [_cmp_pwds] raises [KeyError] instead of returning a
    mapping. *)
Theorem cmp_pwds_confirmation_only `{External} (c : pyval) :
  ProfileResource._cmp_pwds {[ "confirmation" := c ]} =
    Raise (KeyError "password").
Proof. reflexivity. Qed.

(** A long enough password without confirmation raises as well. *)
Lemma cmp_pwds_password_only `{External} (s : string) :
  (6 ≤ unicode_len s)%nat →
  ProfileResource._cmp_pwds {[ "password" := PStr s ]} =
    Raise (KeyError "confirmation").
Proof.
  intros Hs.
  assert (ProfileResource._cmp_pwds {[ "password" := PStr s ]} =
          if Nat.ltb (unicode_len s) 6
          then Ret {[ "password" :=
                        Error (PStr (lazy_gettext
                          "Passwords should be more than 6 symbols length")) ]}
          else Raise (KeyError "confirmation")) as -> by reflexivity.
  destruct (Nat.ltb_spec (unicode_len s) 6); [lia|reflexivity].
Qed.

(** A password that is a number has no length. *)
Lemma cmp_pwds_not_sized `{External} (z : Z) (c : pyval) :
  ProfileResource._cmp_pwds
    (<[ "password" := PInt z ]> {[ "confirmation" := c ]}) = Raise TypeError.
Proof. reflexivity. Qed.

(** With both keys present and a password that is a string, the three
    outcomes of the source: too short, not matching, encrypted. *)
Lemma cmp_pwds_both_keys `{External} (s : string) (c : pyval) :
  ProfileResource._cmp_pwds
    (<[ "password" := PStr s ]> {[ "confirmation" := c ]}) =
  if Nat.ltb (unicode_len s) 6 then
    Ret {[ "password" :=
             Error (PStr (lazy_gettext
               "Passwords should be more than 6 symbols length")) ]}
  else if negb (py_eqb (PStr s) c) then
    Ret {[ "confirmation" :=
             Error (PStr (lazy_gettext "Passwords doesn't match")) ]}
  else
    e ← encrypt_password (PStr s); Ret {[ "password" := Value e ]}.
Proof. reflexivity. Qed.

(** Without either key the mapping comes back as it is. *)
Lemma cmp_pwds_no_keys `{External} (value : pydict) :
  value !! "password" = None →
  value !! "confirmation" = None →
  ProfileResource._cmp_pwds value = Ret (Value <$> value).
Proof.
  intros Hp Hc. unfold ProfileResource._cmp_pwds, contains.
  rewrite Hp, Hc.
  rewrite !bool_decide_eq_false_2 by (by intros [? ?]). reflexivity.
Qed.

(** ** Bank accounts *)

(** C9: once the inherited [get_object] has loaded the bank account,
    [BankAccountResource.get_object] returns it exactly when
    [check_owner] holds for the current user or the current user is a
    superuser; otherwise it aborts with 401 UNAUTHORIZED.  It writes
    nothing itself. *)
Theorem get_object_owner_or_superuser `{External} (id : pyval) (w w1 : World)
    (instance : Z) :
  model_get_object MBankAccount id w = (Ret instance, w1) →
  let allowed := check_owner w1 instance (current_user w1)
                 || is_superuser w1 (current_user w1) in
  (BankAccountResource.get_object id w).2 = w1 ∧
  ((BankAccountResource.get_object id w).1 = Ret instance ↔ allowed = true) ∧
  (allowed = false →
   (BankAccountResource.get_object id w).1 = Raise (HTTPException http.UNAUTHORIZED)).
Proof.
  intros Hg allowed. unfold BankAccountResource.get_object.
  unfold mbind, Py_bind, gets, lift, mret, Py_ret. rewrite Hg. simpl.
  fold allowed. destruct allowed; simpl; split_and!; done.
Qed.

Lemma get_object_owner_or_superuser_witness :
  model_get_object (External := Fixture.external) MBankAccount (PInt 5)
    Fixture.bob_world = (Ret 5%Z, Fixture.bob_world) ∧
  (BankAccountResource.get_object (H := Fixture.external) (PInt 5)
     Fixture.bob_world).1 = Ret 5%Z.
Proof.
  assert (model_get_object (External := Fixture.external) MBankAccount (PInt 5)
            Fixture.bob_world = (Ret 5%Z, Fixture.bob_world)) as Hg
    by reflexivity.
  split; [exact Hg|].
  destruct (get_object_owner_or_superuser (H := Fixture.external) (PInt 5)
              Fixture.bob_world Fixture.bob_world 5 Hg) as (_ & Hiff & _).
  apply Hiff. reflexivity.
Defined.

(** ** Sessions *)


Lemma _get_response_returns `{External} (env : Env) (kwargs : pydict)
    (w : World) :
  is_Some (session w !! "id") →
  ∃ r, SessionResource._get_response env kwargs w = (Ret r, w).
Proof.
  intros [sid Hsid]. unfold SessionResource._get_response, getitem.
  py_unfold. rewrite Hsid. eauto.
Qed.

(** C10: [SessionResource.delete] itself pops 'identity.name',
    'identity.auth_type' and 'customer_id' from the session, whether
    present or not, and writes nothing else; it then hands the world over
    to [identity_changed.send] and [logout_user], and the world after the
    call is the one these two leave.  It answers 204 NO_CONTENT when the
    session still holds 'id' then, which the response reads, and raises
    [KeyError] otherwise. *)
Theorem delete_pops_session_keys `{External} (env : Env) (id : pyval)
    (w : World) :
  ∃ popped : World,
    (∀ k, k ∈ logout_keys → session popped !! k = None) ∧
    (∀ k, k ∉ logout_keys → session popped !! k = session w !! k) ∧
    (users popped = users w ∧ roles popped = roles w ∧
     customers popped = customers w ∧ carts popped = carts w ∧
     addresses popped = addresses w ∧
     bank_accounts popped = bank_accounts w ∧
     current_user popped = current_user w) ∧
    let w' := logout_user (identity_changed_send popped) in
    (SessionResource.delete env id w).2 = w' ∧
    match session w' !! "id" with
    | Some _ => ∃ r, (SessionResource.delete env id w).1 = Ret r ∧
                     status r = http.NO_CONTENT
    | None => (SessionResource.delete env id w).1 = Raise (KeyError "id")
    end.
Proof.
  set (popped := set_session (λ s, delete "customer_id"
                                     (delete "identity.auth_type"
                                        (delete "identity.name" s))) w).
  exists popped. split_and!; try reflexivity.
  - intros k Hk. simpl. unfold logout_keys in Hk.
    rewrite !elem_of_cons in Hk. destruct Hk as [->|[->|[->|Hk]]].
    + by rewrite lookup_delete_ne, lookup_delete_ne, lookup_delete_eq.
    + by rewrite lookup_delete_ne, lookup_delete_eq.
    + by rewrite lookup_delete_eq.
    + by apply elem_of_nil in Hk.
  - intros k Hk. simpl. unfold logout_keys in Hk.
    rewrite !not_elem_of_cons in Hk. destruct Hk as (? & ? & ? & _).
    by rewrite !lookup_delete_ne.
  - intros w'.
    assert (SessionResource.delete env id w =
            (response ← SessionResource._get_response env ∅;
             mret (jsonify_status_code (PDict response) http.NO_CONTENT)) w')
      as ->.
    { unfold SessionResource.delete.
      rewrite (bind_ret _ _ w popped tt) by reflexivity.
      rewrite (bind_ret _ _ popped (identity_changed_send popped) tt)
        by reflexivity.
      by rewrite (bind_ret _ _ (identity_changed_send popped) w' tt)
        by reflexivity. }
    destruct (session w' !! "id") as [sid|] eqn:Hid.
    + destruct (_get_response_returns env ∅ w' (mk_is_Some _ _ Hid))
        as [r Hr].
      rewrite (bind_ret _ _ w' w' r Hr). split; [done|]. by eexists.
    + unfold SessionResource._get_response, getitem. py_unfold.
      by rewrite Hid.
Qed.

(** C10, as stated, fails: after [login_user] the session holds 'user_id',
    which is not among the three keys; [delete] answers 204 and 'user_id'
    is gone, removed by [logout_user]. *)
Lemma delete_removes_user_id :
  ∃ r w',
    SessionResource.delete (H := Fixture.external) (Fixture.env_of PNone)
      PNone Fixture.logged_in_world = (Ret r, w') ∧
    status r = http.NO_CONTENT ∧
    "user_id" ∉ logout_keys ∧
    session Fixture.logged_in_world !! "user_id" = Some (PInt 2) ∧
    session w' !! "user_id" = None.
Proof.
  eexists _, _. split; [vm_compute; reflexivity|].
  split; [reflexivity|]. split; [|split; reflexivity].
  unfold logout_keys. rewrite !not_elem_of_cons. split_and!; try done.
  apply not_elem_of_nil.
Qed.

(** ** Login *)

(** Removing a customer without user changes no user's customers, if the
    user has exactly one. *)
Lemma customers_of_delete (w w' : World) (cid uid : Z) (c : Customer)
    (r : Z * Customer) :
  customers w !! cid = Some c →
  c_user_id c = None →
  customers w' = delete cid (customers w) →
  customers_of w uid = [r] →
  customers_of w' uid = [r].
Proof.
  intros Hc Hanon Hw' Hone. unfold customers_of in *. rewrite Hw'.
  apply Permutation_singleton_r. rewrite <- Hone.
  rewrite <- (map_to_list_delete (customers w) cid c Hc).
  rewrite filter_cons_False; [done|]. simpl. by rewrite Hanon.
Qed.

(** C1: when [_authenticate] finds the user, the user needs no
    confirmation, is active and the password verifies, and after
    [login_user] the session holds under 'customer_id' the key of a
    Customer whose [user_id] is None while the user has exactly one
    Customer, then [_authenticate] returns the data; the carts that
    [Cart.for_customer] selects for the anonymous Customer carry the key of
    the user's Customer and the other carts are as before; the anonymous
    Customer is gone; [session['customer_id']] is the key of the user's
    Customer; and the user still has exactly that one Customer. *)
Theorem authenticate_merges_anonymous_customer `{External}
    (data_dict : pydict) (w : World) (email : pyval) (uid : Z) (user : User)
    (cid : Z) (c : Customer) (own : Z) (oc : Customer) :
  data_dict !! "email" = Some email →
  find_user w email = Some (uid, user) →
  requires_confirmation user = false →
  u_active user = true →
  verify_password (dict_get data_dict "password") (u_password user) = true →
  let w1 := login_user uid false w in
  session w1 !! "customer_id" = Some (PInt cid) →
  customers w1 !! cid = Some c →
  c_user_id c = None →
  customers_of w1 uid = [(own, oc)] →
  ∃ w2,
    SessionResource._authenticate data_dict w = (Ret data_dict, w2) ∧
    carts w2 = reassigned cid c own <$> carts w1 ∧
    customers w2 = delete cid (customers w1) ∧
    customers w2 !! cid = None ∧
    session w2 = <[ "customer_id" := PInt own ]> (session w1) ∧
    customers_of w2 uid = [(own, oc)].
Proof.
  intros Hemail Hfind Hconf Hactive Hpwd w1 Hsess Hcust Hanon Hone.
  set (w1b := customer_delete cid (carts_update (for_customer cid c) own w1)).
  assert (customers_of w1b uid = [(own, oc)]) as Hone'.
  { by apply (customers_of_delete w1 w1b cid uid c). }
  exists (set_session (insert "customer_id" (PInt own)) w1b).
  split_and!; try done.
  - unfold SessionResource._authenticate.
    rewrite (bind_ret _ _ w w email) by (unfold lift, getitem; by rewrite Hemail).
    rewrite (bind_ret _ _ w w (Some (uid, user))) by (unfold gets; by rewrite Hfind).
    rewrite Hconf, Hactive, Hpwd. lazy beta iota delta [negb].
    rewrite (bind_ret _ _ w w1 tt) by reflexivity.
    rewrite (bind_ret _ _ w1 w1 (PInt cid))
      by (unfold gets, dict_get; by rewrite Hsess).
    lazy beta iota delta [negb is_none].
    rewrite (bind_ret _ _ w1 w1b tt).
    + rewrite (bind_ret _ _ w1b w1b (Some (own, oc)))
        by (unfold gets, user_customer; by rewrite Hone').
      rewrite (bind_ret _ _ w1b w1b own) by reflexivity.
      by rewrite (bind_ret _ _ w1b
                    (set_session (insert "customer_id" (PInt own)) w1b) tt)
        by reflexivity.
    + rewrite (bind_ret _ _ w1 w1 (Some (cid, c)))
        by (unfold gets, query_get; by rewrite Hcust).
      rewrite Hanon, bool_decide_eq_true_2 by done.
      rewrite (bind_ret _ _ w1 w1 (Some (own, oc)))
        by (unfold gets, user_customer; by rewrite Hone).
      rewrite (bind_ret _ _ w1 w1 own) by reflexivity.
      by rewrite (bind_ret _ _ w1 (carts_update (for_customer cid c) own w1) tt)
        by reflexivity.
  - simpl. apply lookup_delete_eq.
Qed.

Lemma authenticate_merges_anonymous_customer_witness :
  ∃ w2,
    SessionResource._authenticate (H := Fixture.external) Fixture.credentials
      Fixture.world = (Ret Fixture.credentials, w2) ∧
    customers w2 !! 11%Z = None ∧
    session w2 !! "customer_id" = Some (PInt 10) ∧
    k_customer_id <$> carts w2 !! 100%Z = Some 10%Z.
Proof.
  destruct (authenticate_merges_anonymous_customer (H := Fixture.external)
              Fixture.credentials Fixture.world (PStr "bob@example.org")
              2 Fixture.bob 11 {| c_user_id := None; c_columns := ∅ |}
              10 {| c_user_id := Some 2%Z;
                    c_columns := {[ "shop_id" := PInt 1 ]} |})
    as (w2 & Hrun & Hcarts & _ & Hgone & Hsess & _);
    [reflexivity | vm_compute; reflexivity | reflexivity | reflexivity
    | reflexivity | reflexivity | reflexivity | reflexivity
    | vm_compute; reflexivity |].
  exists w2. split; [exact Hrun|]. split; [exact Hgone|]. split.
  - rewrite Hsess. reflexivity.
  - rewrite Hcarts. reflexivity.
Defined.



(** ** Validation before mutation *)

Section validation.
Context `{External}.

(** A handler whose body check raises [DataError] answers with the error
    mapping and status 400 and leaves the world as it was, provided the
    body passes the guard of the handler. *)
Lemma run_validation_error (h : Handler) (env : Env) (w : World) (e : pyval) :
  schema_check h env = Raise (DataError e) →
  (guards_body h = true → truthy (json (e_request env)) = true) →
  run h env w =
    (Ret (jsonify_status_code (DataError_as_dict e) http.BAD_REQUEST), w).
Proof.
  intros Hcheck Hguard.
  destruct h; simpl in Hcheck, Hguard; unfold run.
  - unfold SessionResource.post, try_DataError. py_unfold.
    by rewrite Hcheck.
  - unfold SessionResource.put. by rewrite Hcheck.
  - unfold ProfileResource.put, ProfileResource.clean, try_DataError.
    py_unfold. rewrite Hguard by done. by rewrite Hcheck.
  - unfold AddressResource.post, try_DataError. py_unfold.
    by rewrite Hcheck.
  - unfold BankAccountResource.post, try_DataError. py_unfold.
    rewrite Hguard by done. by rewrite Hcheck.
  - unfold CustomerResource.post, try_DataError. py_unfold.
    by rewrite Hcheck.
  - unfold CustomerResource.put, try_DataError. py_unfold.
    by rewrite Hcheck.
Qed.

(** A guarded handler aborts on a falsy body before it validates. *)
Lemma run_falsy_body (h : Handler) (env : Env) (w : World) :
  guards_body h = true →
  truthy (json (e_request env)) = false →
  run h env w = (Raise (HTTPException http.BAD_REQUEST), w).
Proof.
  intros Hg Hfalsy. destruct h; try discriminate; unfold run.
  - unfold ProfileResource.put. py_unfold. by rewrite Hfalsy.
  - unfold BankAccountResource.post. py_unfold. by rewrite Hfalsy.
Qed.

Lemma validation_error (h : Handler) (env : Env) (w : World) (e : pyval) :
  schema_check h env = Raise (DataError e) →
  validation h env w = (Raise (DataError e), w).
Proof.
  intros Hcheck. destruct h; simpl in *; unfold lift; try by rewrite Hcheck.
  unfold ProfileResource.clean. py_unfold. by rewrite Hcheck.
Qed.

Lemma method_wrapper_error (http_status : Z) (meth : pyval → Py pyval)
    (env : Env) (w w' : World) (e : pyval) :
  truthy (json (e_request env)) = true →
  meth (json (e_request env)) w = (Raise (DataError e), w') →
  method_wrapper http_status meth env w =
    (Ret (jsonify_status_code (DataError_as_dict e) http.BAD_REQUEST), w').
Proof.
  intros Ht Hm. unfold method_wrapper, try_DataError. py_unfold.
  by rewrite Ht, Hm.
Qed.

Lemma method_wrapper_falsy_body (http_status : Z) (meth : pyval → Py pyval)
    (env : Env) (w : World) :
  truthy (json (e_request env)) = false →
  method_wrapper http_status meth env w =
    (Raise (HTTPException http.BAD_REQUEST), w).
Proof.
  intros Ht. unfold method_wrapper, try_DataError. py_unfold.
  by rewrite Ht.
Qed.
(** A method under [method_wrapper] that checks the data before anything
    else: a failing check leaves the world as it was. *)
Lemma method_wrapper_check_error (http_status : Z) (chk : pyval → res pydict)
    (business : pydict → Py pyval) (env : Env) (w : World) (e : pyval) :
  chk (json (e_request env)) = Raise (DataError e) →
  method_wrapper http_status
    (λ data, cleaned ← lift (chk data); business cleaned) env w =
    if truthy (json (e_request env))
    then (Ret (jsonify_status_code (DataError_as_dict e) http.BAD_REQUEST), w)
    else (Raise (HTTPException http.BAD_REQUEST), w).
Proof.
  intros Hchk. destruct (truthy (json (e_request env))) eqn:Ht.
  - apply method_wrapper_error; [done|]. py_unfold. by rewrite Hchk.
  - by apply method_wrapper_falsy_body.
Qed.
End validation.

(** C2: when the check of the request body against the validation dict of
    a POST or PUT handler of [account/api.py] raises [DataError], the
    validation step ends with that error and has written nothing, the world
    after the handler is the world before it, and the handler answers 400,
    with the error mapping or by [abort] for a falsy body.  The same holds
    for every method run under [method_wrapper] that checks the data before
    anything else. *)
Theorem validation_failure_keeps_state `{External} (h : Handler) (env : Env)
    (w : World) (e : pyval) :
  (schema_check h env = Raise (DataError e) →
   validation h env w = (Raise (DataError e), w) ∧
   (run h env w).2 = w ∧
   ((run h env w).1 =
      Ret (jsonify_status_code (DataError_as_dict e) http.BAD_REQUEST) ∨
    (run h env w).1 = Raise (HTTPException http.BAD_REQUEST))) ∧
  (∀ http_status (chk : pyval → res pydict) (business : pydict → Py pyval),
     chk (json (e_request env)) = Raise (DataError e) →
     let meth := λ data, cleaned ← lift (chk data); business cleaned in
     (method_wrapper http_status meth env w).2 = w ∧
     ((method_wrapper http_status meth env w).1 =
        Ret (jsonify_status_code (DataError_as_dict e) http.BAD_REQUEST) ∨
      (method_wrapper http_status meth env w).1 =
        Raise (HTTPException http.BAD_REQUEST))).
Proof.
  split.
  - intros Hcheck. split; [by apply validation_error|].
    destruct (guards_body h) eqn:Hg.
    + destruct (truthy (json (e_request env))) eqn:Ht.
      * rewrite (run_validation_error h env w e Hcheck) by done.
        simpl; auto.
      * rewrite (run_falsy_body h env w Hg Ht). simpl; auto.
    + rewrite (run_validation_error h env w e Hcheck) by congruence.
      simpl; auto.
  - intros http_status chk business Hchk meth. unfold meth.
    rewrite (method_wrapper_check_error http_status chk business env w e Hchk).
    destruct (truthy (json (e_request env))); simpl; auto.
Qed.

Lemma validation_failure_keeps_state_witness :
  schema_check (H := Fixture.external) (ProfilePut (PInt 2))
    (Fixture.env_of (PDict {[ "role_id" := PInt 2 ]})) =
    Raise (DataError
             (PDict (<[ "first_name" := PStr "is required" ]>
                     (<[ "last_name" := PStr "is required" ]>
                     (<[ "phone" := PStr "is required" ]>
                     (<[ "fax" := PStr "is required" ]>
                     {[ "company" := PStr "is required" ]})))))) ∧
  validation (H := Fixture.external) (ProfilePut (PInt 2))
    (Fixture.env_of (PDict {[ "role_id" := PInt 2 ]})) Fixture.admin_world =
    (Raise (DataError
              (PDict (<[ "first_name" := PStr "is required" ]>
                      (<[ "last_name" := PStr "is required" ]>
                      (<[ "phone" := PStr "is required" ]>
                      (<[ "fax" := PStr "is required" ]>
                      {[ "company" := PStr "is required" ]})))))),
     Fixture.admin_world) ∧
  (run (H := Fixture.external) (ProfilePut (PInt 2))
     (Fixture.env_of (PDict {[ "role_id" := PInt 2 ]})) Fixture.admin_world).2 =
    Fixture.admin_world.
Proof.
  assert (schema_check (H := Fixture.external) (ProfilePut (PInt 2))
            (Fixture.env_of (PDict {[ "role_id" := PInt 2 ]})) =
          Raise (DataError
                   (PDict (<[ "first_name" := PStr "is required" ]>
                           (<[ "last_name" := PStr "is required" ]>
                           (<[ "phone" := PStr "is required" ]>
                           (<[ "fax" := PStr "is required" ]>
                           {[ "company" := PStr "is required" ]})))))))
    as Hcheck by (vm_compute; reflexivity).
  split; [exact Hcheck|].
  destruct (proj1 (validation_failure_keeps_state (H := Fixture.external)
                     (ProfilePut (PInt 2))
                     (Fixture.env_of (PDict {[ "role_id" := PInt 2 ]}))
                     Fixture.admin_world _) Hcheck)
    as (Hval & Hstate & _).
  by split.
Defined.

(** C6: when the check of the request body against the validation dict of
    a POST or PUT handler of [account/api.py] raises [DataError] and the
    body is truthy where the handler starts with
    [request.json or abort(BAD_REQUEST)], the handler answers with status
    400 and with what [as_dict] gives for the error: the mapping of field
    names to messages when the error carries one, the bare message when the
    check rejects the body as a whole; it writes nothing.  So does
    [method_wrapper] for a truthy body whose method raises [DataError]. *)
Theorem validation_error_response `{External} (h : Handler) (env : Env)
    (w : World) (e : pyval) :
  (guards_body h = true → truthy (json (e_request env)) = true) →
  (schema_check h env = Raise (DataError e) →
   ∃ resp, run h env w = (Ret resp, w) ∧
           status resp = http.BAD_REQUEST ∧
           body resp = DataError_as_dict e ∧
           (∀ fields, e = PDict fields → body resp = PDict fields) ∧
           (∀ message, e = PStr message → body resp = PStr message)) ∧
  (∀ http_status meth w',
     truthy (json (e_request env)) = true →
     meth (json (e_request env)) w = (Raise (DataError e), w') →
     ∃ resp, method_wrapper http_status meth env w = (Ret resp, w') ∧
             status resp = http.BAD_REQUEST ∧
             body resp = DataError_as_dict e).
Proof.
  intros Hguard. split.
  - intros Hcheck. eexists.
    split; [exact (run_validation_error h env w e Hcheck Hguard)|].
    split_and!; [done | done | by intros ? -> | by intros ? ->].
  - intros http_status meth w' Ht Hm. eexists.
    split; [exact (method_wrapper_error http_status meth env w w' e Ht Hm)|].
    done.
Qed.

Lemma validation_error_response_witness :
  (∃ resp, run (H := Fixture.external) BankAccountPost
             (Fixture.env_of Fixture.bank_body) Fixture.bob_world
           = (Ret resp, Fixture.bob_world) ∧
           status resp = http.BAD_REQUEST ∧
           body resp = PDict (<[ "iban" := PStr "is required" ]>
                              {[ "swift" := PStr "is required" ]})) ∧
  (∃ resp, run (H := Fixture.external) (SessionPut PNone)
             (Fixture.env_of (PList [PInt 1])) Fixture.world
           = (Ret resp, Fixture.world) ∧
           status resp = http.BAD_REQUEST ∧
           body resp = PStr "value is not dict").
Proof.
  split.
  - destruct (validation_error_response (H := Fixture.external)
                BankAccountPost (Fixture.env_of Fixture.bank_body)
                Fixture.bob_world
                (PDict (<[ "iban" := PStr "is required" ]>
                        {[ "swift" := PStr "is required" ]})))
      as [Hrun _]; [reflexivity|].
    destruct Hrun as (resp & Hr & Hs & _ & Hfields & _);
      [vm_compute; reflexivity|].
    exists resp. split; [exact Hr|]. split; [exact Hs|].
    by apply Hfields.
  - destruct (validation_error_response (H := Fixture.external)
                (SessionPut PNone) (Fixture.env_of (PList [PInt 1]))
                Fixture.world (PStr "value is not dict"))
      as [Hrun _]; [discriminate|].
    destruct Hrun as (resp & Hr & Hs & _ & _ & Hmessage);
      [vm_compute; reflexivity|].
    exists resp. split; [exact Hr|]. split; [exact Hs|].
    by apply Hmessage.
Defined.

(** C6, as stated, fails: the empty JSON object does not pass the
    validation dict of [BankAccountResource], yet the handler does not
    answer with the error mapping: it aborts before it validates. *)
Lemma bank_account_post_empty_body :
  ∃ e,
    schema_check (H := Fixture.external) BankAccountPost
      (Fixture.env_of (PDict ∅)) = Raise (DataError e) ∧
    (run (H := Fixture.external) BankAccountPost (Fixture.env_of (PDict ∅))
       Fixture.bob_world).1 = Raise (HTTPException http.BAD_REQUEST) ∧
    (run (H := Fixture.external) BankAccountPost (Fixture.env_of (PDict ∅))
       Fixture.bob_world).1 ≠
      Ret (jsonify_status_code (DataError_as_dict e) http.BAD_REQUEST).
Proof.
  eexists. split; [vm_compute; reflexivity|].
  split; [vm_compute; reflexivity|].
  intros Heq. vm_compute in Heq. discriminate Heq.
Qed.

(** ** More on the multilingual overlay *)

Section overlay_frame.
Context `{Builtins}.

(** Replacing a row that does not match, by one that does not match
    either, does not change what a search finds. *)
Lemma list_find_insert_unmatched {A} (P : A → Prop) `{!∀ x, Decision (P x)}
    (l : list A) (i : nat) (x y : A) :
  l !! i = Some x → ¬ P x → ¬ P y →
  list_find P (<[i := y]> l) = list_find P l.
Proof.
  revert i. induction l as [|z l IH]; intros i Hi Hx Hy; [done|].
  destruct i as [|i]; simpl in *.
  - simplify_eq. by rewrite !decide_False by done.
  - destruct (decide (P z)); [done|]. by rewrite (IH i).
Qed.

(** Replacing the row that a search finds by another matching row makes
    the search find the new row at the same position. *)
Lemma list_find_insert_found {A} (P : A → Prop) `{!∀ x, Decision (P x)}
    (l : list A) (i : nat) (x y : A) :
  list_find P l = Some (i, x) → P y →
  list_find P (<[i := y]> l) = Some (i, y).
Proof.
  intros (Hi & _ & Hlt)%list_find_Some Hy. apply list_find_Some. split_and!.
  - apply list_lookup_insert_eq. by eapply lookup_lt_Some.
  - done.
  - intros j z Hj Hji. rewrite list_lookup_insert_ne in Hj by lia. eauto.
Qed.

(** Appending a row that does not match does not change what a search
    finds. *)
Lemma list_find_app_unmatched {A} (P : A → Prop) `{!∀ x, Decision (P x)}
    (l : list A) (y : A) :
  ¬ P y → list_find P (l ++ [y]) = list_find P l.
Proof.
  intros Hy. induction l as [|z l IH]; simpl.
  - by rewrite decide_False.
  - destruct (decide (P z)); [done|]. by rewrite IH.
Qed.

Lemma getattr_setattr_ne (r : Localized) (field field' : string) (v : pyval) :
  field ≠ field' → getattr (setattr r field v) field' = getattr r field'.
Proof.
  intros Hne. unfold getattr, setattr, dict_get; simpl.
  by rewrite lookup_insert_ne.
Qed.

(** What a search for another pair finds after a write. *)
Lemma first_other_pair (field : string) (ctx : Context) (self_id : nat)
    (value : pyval) (t t' : LocalizedTable) (lang : string)
    (self_id' : nat) (lang' : string) :
  _get_locale ctx = Ret lang →
  setter field ctx self_id value t = Ret t' →
  (self_id', lang') ≠ (self_id, lang) →
  first self_id' lang' t' = first self_id' lang' t.
Proof.
  intros Hl Hs Hne. unfold setter in Hs. rewrite Hl in Hs. simpl in Hs.
  assert (∀ r, filter_by self_id lang r → ¬ filter_by self_id' lang' r) as Hno.
  { intros r [Hp Hloc] [Hp' Hloc']. apply Hne. congruence. }
  destruct (first self_id lang t) as [[i r]|] eqn:Hf; simplify_eq.
  - apply list_find_Some in Hf as (Hi & HP & _).
    apply (list_find_insert_unmatched _ _ _ r); [done|by apply Hno|].
    apply Hno. exact HP.
  - apply list_find_app_unmatched. by apply Hno.
Qed.

(** A write to one attribute of one parent under one locale changes no
    other reading: the same attribute of another parent or under another
    locale, or another attribute. *)
Lemma setter_frame (field : string) (ctx : Context) (self_id : nat)
    (value : pyval) (t t' : LocalizedTable) (lang : string)
    (field' : string) (ctx' : Context) (self_id' : nat) (lang' : string) :
  _get_locale ctx = Ret lang →
  _get_locale ctx' = Ret lang' →
  setter field ctx self_id value t = Ret t' →
  (self_id', lang', field') ≠ (self_id, lang, field) →
  getter field' ctx' self_id' t' = getter field' ctx' self_id' t ∧
  expression field' ctx' self_id' t' = expression field' ctx' self_id' t.
Proof.
  intros Hl Hl' Hs Hne. unfold getter, expression. rewrite Hl'. simpl.
  destruct (decide ((self_id', lang') = (self_id, lang))) as [Heq|Hpair].
  - simplify_eq. assert (field ≠ field') as Hfield by congruence.
    unfold setter in Hs. rewrite Hl in Hs. simpl in Hs.
    destruct (first self_id lang t) as [[i r]|] eqn:Hf; simplify_eq.
    + unfold first in *.
      rewrite (list_find_insert_found _ t i r (setattr r field value) Hf).
      * by rewrite getattr_setattr_ne.
      * apply list_find_Some in Hf as (_ & HP & _). exact HP.
    + destruct (first_after_setter field ctx self_id value t lang Hl)
        as (t'' & i & r & Hs' & Hf').
      unfold setter in Hs'. rewrite Hl in Hs'. simpl in Hs'.
      rewrite Hf in Hs'. simplify_eq.
      unfold first in Hf. apply list_find_None in Hf.
      assert (first self_id lang
                (t ++ [setattr (localized self_id lang) field value])
              = Some (length t, setattr (localized self_id lang) field value))
        as ->.
      { apply list_find_Some. split_and!.
        - rewrite lookup_app_r by lia. by rewrite Nat.sub_diag.
        - by split.
        - intros j y Hj Hlt. rewrite lookup_app_l in Hj by lia.
          eapply Forall_lookup_1 in Hf; eauto. }
      by rewrite getattr_setattr_ne.
  - by rewrite (first_other_pair field ctx self_id value t t' lang
                  self_id' lang' Hl Hs Hpair).
Qed.

(** X2: A second write to the same parent and locale adds no row, and the
    value read through the SQL expression is the last one written. *)
Theorem setter_twice (field field2 : string) (ctx ctx2 ctx' : Context)
    (self_id : nat) (v1 v2 : pyval) (t : LocalizedTable) (lang : string) :
  _get_locale ctx = Ret lang →
  _get_locale ctx2 = Ret lang →
  _get_locale ctx' = Ret lang →
  ∃ t1 t2,
    setter field ctx self_id v1 t = Ret t1 ∧
    setter field2 ctx2 self_id v2 t1 = Ret t2 ∧
    length t2 = length t1 ∧
    expression field2 ctx' self_id t2 = Ret v2 ∧
    (field ≠ field2 → expression field ctx' self_id t2 = Ret v1).
Proof.
  intros Hl Hl2 Hl'.
  destruct (first_after_setter field ctx self_id v1 t lang Hl)
    as (t1 & i & r & Hs1 & Hf1).
  exists t1, (<[i := setattr (setattr r field v1) field2 v2]> t1).
  assert (filter_by self_id lang (setattr (setattr r field v1) field2 v2))
    as HP.
  { unfold first in Hf1. by apply list_find_Some in Hf1 as (_ & HP & _). }
  split_and!.
  - done.
  - unfold setter. rewrite Hl2. simpl. by rewrite Hf1.
  - by rewrite length_insert.
  - unfold expression. rewrite Hl'. simpl. unfold first in *.
    rewrite (list_find_insert_found _ t1 i _ _ Hf1 HP).
    by rewrite getattr_setattr.
  - intros Hne. unfold expression. rewrite Hl'. simpl. unfold first in *.
    rewrite (list_find_insert_found _ t1 i _ _ Hf1 HP).
    by rewrite getattr_setattr_ne, getattr_setattr by done.
Qed.
End overlay_frame.

Lemma setter_twice_witness :
  ∃ t1 t2,
    setter (H := Fixture.builtins) "title" Fixture.german 1 (PStr "Hallo") [] = Ret t1 ∧
    setter (H := Fixture.builtins) "title" Fixture.german 1 (PStr "Moin") t1 = Ret t2 ∧
    length t2 = length t1 ∧
    expression (H := Fixture.builtins) "title" Fixture.german 1 t2 = Ret (PStr "Moin").
Proof.
  destruct (setter_twice (H := Fixture.builtins) "title" "title"
              Fixture.german Fixture.german Fixture.german 1
              (PStr "Hallo") (PStr "Moin") [] "de")
    as (t1 & t2 & H1 & H2 & H3 & H4 & _); [reflexivity..|].
  by exists t1, t2.
Defined.

(** X1: No sequence of writes to other attributes, other parents or under other
    locales changes what an attribute reads as: a written value stays until
    the same attribute of the same parent is written under the same locale. *)
Theorem apply_writes_frame `{Builtins} (ws : list Write) (t : LocalizedTable)
    (field' : string) (ctx' : Context) (self_id' : nat) (lang' : string) :
  _get_locale ctx' = Ret lang' →
  Forall (λ w, ∀ lang, _get_locale (w_ctx w) = Ret lang →
               (self_id', lang', field') ≠ (w_self w, lang, w_field w)) ws →
  getter field' ctx' self_id' (apply_writes ws t) = getter field' ctx' self_id' t ∧
  expression field' ctx' self_id' (apply_writes ws t)
    = expression field' ctx' self_id' t.
Proof.
  intros Hl'. revert t. unfold apply_writes.
  induction ws as [|w ws IH]; intros t Hws; simpl; [done|].
  apply Forall_cons in Hws as [Hw Hws].
  destruct (IH (apply_write t w) Hws) as [-> ->].
  unfold apply_write.
  destruct (setter (w_field w) (w_ctx w) (w_self w) (w_value w) t)
    as [t1|e] eqn:Hs; [|done].
  destruct (_get_locale (w_ctx w)) as [lang|e] eqn:Hl.
  - exact (setter_frame (w_field w) (w_ctx w) (w_self w) (w_value w) t t1
             lang field' ctx' self_id' lang' Hl Hl' Hs (Hw lang eq_refl)).
  - unfold setter in Hs. by rewrite Hl in Hs.
Qed.

Lemma apply_writes_frame_witness :
  expression (H := Fixture.builtins) "subtitle" Fixture.german 1
    (apply_writes (H := Fixture.builtins) Fixture.writes [])
  = expression (H := Fixture.builtins) "subtitle" Fixture.german 1 [].
Proof.
  apply (apply_writes_frame (H := Fixture.builtins) Fixture.writes []
           "subtitle" Fixture.german 1 "de"); [reflexivity|].
  unfold Fixture.writes.
  repeat (apply Forall_cons; split; [intros lang [= <-]; discriminate|]).
  apply Forall_nil_2.
Defined.


(** X3: [_get_locale] takes the locale from the query string before the JSON
    body, and from the JSON body before [get_locale()]: with '_lang' in
    [request.args] the body is not consulted, whatever it holds; without
    it, a body that is a dict with '_lang' names the locale, and a body
    that is falsy or a dict without '_lang' leaves it to [get_locale()].
    A value written in a request that names the locale in the query
    string is found by the SQL expression in every context that resolves
    to that locale. *)
Theorem get_locale_precedence `{Builtins} (rq : Request) (gl : pyval) :
  let ctx := {| request := Some rq; get_locale := gl |} in
  (∀ l, args rq !! "_lang" = Some l → _get_locale ctx = Ret l) ∧
  (∀ d v, args rq !! "_lang" = None → json rq = PDict d →
          d !! "_lang" = Some v → _get_locale ctx = Ret (unicode v)) ∧
  (∀ d, args rq !! "_lang" = None → json rq = PDict d →
        d !! "_lang" = None → _get_locale ctx = Ret (unicode gl)) ∧
  (args rq !! "_lang" = None → truthy (json rq) = false →
   _get_locale ctx = Ret (unicode gl)) ∧
  (∀ l ctx' field self_id v t,
     args rq !! "_lang" = Some l →
     _get_locale ctx' = Ret l →
     ∃ t', setter field ctx self_id v t = Ret t' ∧
           expression field ctx' self_id t' = Ret v).
Proof.
  intros ctx.
  assert (∀ l, args rq !! "_lang" = Some l → _get_locale ctx = Ret l) as Hq.
  { intros l Hl. unfold _get_locale. simpl. by rewrite Hl. }
  split_and!.
  - exact Hq.
  - intros d v Ha Hj Hv. unfold _get_locale. simpl. rewrite Ha, Hj. simpl.
    destruct (Nat.eqb_spec (size d) 0) as [Hsize|_]; simpl.
    + apply map_size_empty_iff in Hsize. subst d.
      by rewrite lookup_empty in Hv.
    + by rewrite Hv.
  - intros d Ha Hj Hv. unfold _get_locale. simpl. rewrite Ha, Hj. simpl.
    destruct (Nat.eqb (size d) 0); simpl; [done|]. by rewrite Hv.
  - intros Ha Hf. unfold _get_locale. simpl. by rewrite Ha, Hf.
  - intros l ctx' field self_id v t Hl Hl'.
    destruct (getter_after_setter field ctx ctx' self_id v t l (Hq l Hl) Hl')
      as (t' & Hs & _ & He).
    by exists t'.
Qed.

Lemma get_locale_precedence_witness :
  _get_locale (H := Fixture.builtins) Fixture.french = Ret "fr" ∧
  ∃ t', setter (H := Fixture.builtins) "title" Fixture.french 1
          (PStr "Bonjour") [] = Ret t' ∧
        expression (H := Fixture.builtins) "title" Fixture.french_body 1 t'
        = Ret (PStr "Bonjour").
Proof.
  destruct (get_locale_precedence (H := Fixture.builtins)
              {| args := {[ "_lang" := "fr" ]}; json := PInt 7;
                 data := ""; url_root := "" |} (PStr "de"))
    as (Hq & _ & _ & _ & Hrw).
  split.
  - apply Hq. reflexivity.
  - apply (Hrw "fr" Fixture.french_body "title" 1 (PStr "Bonjour") []);
      reflexivity.
Defined.

(** ** The language filter of serializers *)

(** One round of the loop returns the data as they are or with the field
    blanked, and returns only for a field that is unset in the instance or
    set to a dict holding the language of the instance. *)
Lemma crm_language_field_cases (instance : Document) (data data' : pydict)
    (field : string) :
  crm_language_field instance data field = Ret data' →
  (data' = data ∨ data' = <[ field := PStr "" ]> data) ∧
  (dict_get (doc_fields instance) field = PNone ∨
   ∃ d v, dict_get (doc_fields instance) field = PDict d ∧
          d !! _lang instance = Some v).
Proof.
  unfold crm_language_field, mbind, res_bind. intros Hf.
  destruct (dict_get (doc_fields instance) field) as [| | | | |d] eqn:Hv;
    simpl in Hf; try discriminate.
  - split; [|by left].
    destruct (getitem data field) as [v|]; simpl in Hf; [|discriminate].
    destruct (is_text v); simpl in Hf; [left; congruence|].
    destruct (py_in (_lang instance) v) as [[]|]; simpl in Hf;
      simplify_eq; auto.
  - unfold getitem in Hf at 1.
    destruct (d !! _lang instance) as [v|] eqn:Hd; simpl in Hf; [|discriminate].
    split; [|right; eauto].
    destruct (is_text v); simpl in Hf; [|right; congruence].
    destruct (getitem data field) as [v'|]; simpl in Hf; [|discriminate].
    destruct (is_text v'); simpl in Hf; [left; congruence|].
    destruct (py_in (_lang instance) v') as [[]|]; simpl in Hf;
      simplify_eq; auto.
Qed.

Lemma crm_language_loop_cases (instance : Document) (fields : list string)
    (data data' : pydict) :
  Forall (λ f, is_Some (data !! f)) fields →
  crm_language_loop instance fields data = Ret data' →
  dom data' = dom data ∧
  (∀ k, data' !! k = data !! k ∨ (k ∈ fields ∧ data' !! k = Some (PStr ""))) ∧
  Forall (λ f, dict_get (doc_fields instance) f = PNone ∨
               ∃ d v, dict_get (doc_fields instance) f = PDict d ∧
                      d !! _lang instance = Some v) fields.
Proof.
  revert data. induction fields as [|f fields IH]; intros data Hin Hloop.
  - simpl in Hloop. simplify_eq. split_and!; [done|by left|constructor].
  - simpl in Hloop. unfold mbind, res_bind in Hloop.
    apply Forall_cons in Hin as [Hf Hin].
    destruct (crm_language_field instance data f) as [d1|] eqn:H1;
      simpl in Hloop; [|discriminate].
    apply crm_language_field_cases in H1 as [Hd1 Hok].
    assert (dom d1 = dom data) as Hdom.
    { destruct Hd1 as [-> | ->]; [done|].
      rewrite dom_insert_L. apply elem_of_dom in Hf. set_solver. }
    assert (Forall (λ f, is_Some (d1 !! f)) fields) as Hin1.
    { eapply Forall_impl; [exact Hin|]. intros g Hg. simpl in Hg.
      apply elem_of_dom. rewrite Hdom. by apply elem_of_dom. }
    destruct (IH d1 Hin1 Hloop) as (Hdom' & Hk & Hall).
    split_and!.
    + by rewrite Hdom'.
    + intros k. destruct (Hk k) as [Heq | [Hkin Hblank]].
      * rewrite Heq. destruct Hd1 as [-> | ->]; [by left|].
        destruct (decide (f = k)) as [-> | Hne].
        -- right. split; [by left|]. by rewrite lookup_insert_eq.
        -- left. by rewrite lookup_insert_ne.
      * right. split; [by right|done].
    + by constructor.
Qed.

(** X4: [crm_language] keeps the keys of the serialized data; it changes no
    value but those of fields of [i18n], which it may replace by the empty
    string; and it returns only if every field of [i18n] found in the data
    is unset in the instance or set to a dict that holds the language of
    the instance. *)
Theorem crm_language_blanks_only {O I : Type}
    (serialize : O → Document → I → res pydict)
    (i18n : O → option (list string)) (obj : O) (instance : Document)
    (include : I) (data data' : pydict) :
  serialize obj instance include = Ret data →
  crm_language serialize i18n obj instance include = Ret data' →
  dom data' = dom data ∧
  (∀ k, data' !! k = data !! k ∨
        (k ∈ default [] (i18n obj) ∧ is_Some (data !! k) ∧
         data' !! k = Some (PStr ""))) ∧
  (∀ f, f ∈ default [] (i18n obj) → is_Some (data !! f) →
        dict_get (doc_fields instance) f = PNone ∨
        ∃ d v, dict_get (doc_fields instance) f = PDict d ∧
               d !! _lang instance = Some v).
Proof.
  intros Hs Hc. unfold crm_language, mbind, res_bind in Hc.
  rewrite Hs in Hc.
  destruct (i18n obj) as [fields|]; simpl.
  - assert (Forall (λ f, is_Some (data !! f))
              (filter (λ field, contains data field = true) fields)) as Hin.
    { apply Forall_forall. intros f [Hf _]%list_elem_of_filter.
      unfold contains in Hf. by apply bool_decide_eq_true in Hf. }
    destruct (crm_language_loop_cases instance _ data data' Hin Hc)
      as (Hdom & Hk & Hall).
    split_and!; [done| |].
    + intros k. destruct (Hk k) as [? | [[Hc' Hkin]%list_elem_of_filter ?]];
        [by left|right].
      split_and!; [done| |done].
      unfold contains in Hc'. by apply bool_decide_eq_true in Hc'.
    + intros f Hf Hsome. rewrite Forall_forall in Hall. apply Hall.
      apply list_elem_of_filter. split; [|done].
      unfold contains. by apply bool_decide_eq_true.
  - simplify_eq. split_and!; [done|by left|]. intros f Hf. by apply elem_of_nil in Hf.
Qed.

Lemma crm_language_blanks_only_witness :
  ∃ data',
    crm_language Fixture.serialize_document (λ _, Some ["title"; "teaser"; "name"])
      tt Fixture.document PNone = Ret data' ∧
    dom data' = dom Fixture.document_data ∧
    data' !! "price" = Some (PInt 5).
Proof.
  assert (∃ data',
            crm_language Fixture.serialize_document
              (λ _, Some ["title"; "teaser"; "name"]) tt Fixture.document PNone
            = Ret data') as [data' Hrun] by (eexists; vm_compute; reflexivity).
  exists data'. split; [exact Hrun|].
  destruct (crm_language_blanks_only Fixture.serialize_document
              (λ _, Some ["title"; "teaser"; "name"]) tt Fixture.document
              PNone Fixture.document_data data' eq_refl Hrun)
    as (Hdom & Hk & _).
  split; [exact Hdom|].
  destruct (Hk "price") as [-> | (Hin & _)]; [reflexivity|].
  simpl in Hin. set_solver.
Defined.

(** A field whose instance value and serialized value are texts in the
    language of the instance passes the round of the loop unchanged. *)
Lemma crm_language_field_text (instance : Document) (data : pydict)
    (field : string) (d : pydict) (s s' : string) :
  dict_get (doc_fields instance) field = PDict d →
  d !! _lang instance = Some (PStr s) →
  data !! field = Some (PStr s') →
  crm_language_field instance data field = Ret data.
Proof.
  intros Hv Hd Hdata.
  unfold crm_language_field, mbind, res_bind, subscript, getitem.
  rewrite Hv. simpl. rewrite Hd. simpl. by rewrite Hdata.
Qed.

(** ** More on sessions *)

Ltac status_unfold :=
  unfold jsonify_status_code, http.CREATED, http.ACCEPTED, http.BAD_REQUEST,
    http.NOT_FOUND, http.NO_CONTENT in *; simpl in *.

Section sessions.
Context `{External}.

(** [_authenticate] raises [DataError] only before it logs the user in. *)
Lemma authenticate_data_error (data_dict : pydict) (w w' : World) (e : pyval) :
  SessionResource._authenticate data_dict w = (Raise (DataError e), w') →
  w' = w ∧
  ∃ field msg, e = message field msg ∧ (field = "email" ∨ field = "password").
Proof.
  unfold SessionResource._authenticate. py_unfold. unfold getitem, id_of.
  intros Hrun.
  repeat (case_match; simplify_eq/=); eauto 10.
Qed.

(** [_get_response] reads only. *)
Lemma _get_response_reads (env : Env) (kwargs : pydict) (w : World) :
  (SessionResource._get_response env kwargs w).2 = w.
Proof.
  unfold SessionResource._get_response. py_unfold. unfold getitem.
  by repeat (case_match; simplify_eq/=).
Qed.

Lemma _get_response_no_data_error (env : Env) (kwargs : pydict) (w w' : World)
    (e : pyval) :
  SessionResource._get_response env kwargs w ≠ (Raise (DataError e), w').
Proof.
  unfold SessionResource._get_response. py_unfold. unfold getitem.
  by repeat (case_match; simplify_eq/=).
Qed.
End sessions.

(** X8: A login that [_authenticate] rejects with a [DataError] has changed
    nothing: the user is not logged in, no row and no session entry is
    written; the error names the field 'email' or 'password'. *)
Theorem authenticate_rejection_keeps_state `{External} (data_dict : pydict)
    (w w' : World) (e : pyval) :
  SessionResource._authenticate data_dict w = (Raise (DataError e), w') →
  w' = w ∧
  ∃ field msg, e = message field msg ∧ (field = "email" ∨ field = "password").
Proof. apply authenticate_data_error. Qed.

Lemma authenticate_rejection_keeps_state_witness :
  SessionResource._authenticate (H := Fixture.external)
    Fixture.wrong_credentials Fixture.world
  = (Raise (DataError (message (H := Fixture.external) "password" "Wrong password")),
     Fixture.world).
Proof.
  assert (∃ e w', SessionResource._authenticate (H := Fixture.external)
                    Fixture.wrong_credentials Fixture.world
                  = (Raise (DataError e), w') ∧
                  e = message (H := Fixture.external) "password" "Wrong password")
    as (e & w' & Hrun & ->) by (eexists _, _; split; vm_compute; reflexivity).
  destruct (authenticate_rejection_keeps_state (H := Fixture.external)
              Fixture.wrong_credentials Fixture.world w' _ Hrun) as [-> _].
  exact Hrun.
Defined.

(** X9: A user without Customer cannot authenticate: with the right password
    [_authenticate] raises [AttributeError], and [login_user] has already
    run. *)
Theorem authenticate_without_customer `{External} (data_dict : pydict)
    (w : World) (email : pyval) (uid : Z) (user : User) :
  data_dict !! "email" = Some email →
  find_user w email = Some (uid, user) →
  requires_confirmation user = false →
  u_active user = true →
  verify_password (dict_get data_dict "password") (u_password user) = true →
  customers_of (login_user uid false w) uid = [] →
  SessionResource._authenticate data_dict w =
    (Raise (AttributeError "id"), login_user uid false w).
Proof.
  intros Hemail Hfind Hconf Hactive Hpwd Hnone.
  unfold SessionResource._authenticate. py_unfold.
  unfold getitem, id_of, user_customer, carts_update, customer_delete.
  rewrite Hemail, Hfind, Hconf, Hactive, Hpwd. simpl.
  set (w1 := login_user uid false w) in *.
  destruct (is_none (dict_get (session w1) "customer_id")); simpl.
  - by rewrite Hnone.
  - destruct (query_get (customers w1) (dict_get (session w1) "customer_id"))
      as [[cid c]|]; simpl.
    + destruct (bool_decide (c_user_id c = None)); simpl; by rewrite Hnone.
    + by rewrite Hnone.
Qed.

Lemma authenticate_without_customer_witness :
  SessionResource._authenticate (H := Fixture.external)
    Fixture.admin_credentials Fixture.world
  = (Raise (AttributeError "id"), Fixture.login 1 false Fixture.world).
Proof.
  apply (authenticate_without_customer (H := Fixture.external)
           Fixture.admin_credentials Fixture.world (PStr "root@example.org")
           1 Fixture.admin);
    [reflexivity | vm_compute; reflexivity | reflexivity | reflexivity
    | reflexivity | vm_compute; reflexivity].
Defined.

(** X10: When the session names no Customer, or one that is missing or belongs
    to a user, a successful [_authenticate] writes nothing but the login
    and [session['customer_id']], the key of the user's Customer. *)
Theorem authenticate_without_merge `{External} (data_dict : pydict)
    (w : World) (email : pyval) (uid : Z) (user : User) (own : Z)
    (oc : Customer) (others : list (Z * Customer)) :
  data_dict !! "email" = Some email →
  find_user w email = Some (uid, user) →
  requires_confirmation user = false →
  u_active user = true →
  verify_password (dict_get data_dict "password") (u_password user) = true →
  let w1 := login_user uid false w in
  customers_of w1 uid = (own, oc) :: others →
  (∀ cid c, query_get (customers w1) (dict_get (session w1) "customer_id")
            = Some (cid, c) → c_user_id c ≠ None) →
  SessionResource._authenticate data_dict w =
    (Ret data_dict, set_session (insert "customer_id" (PInt own)) w1).
Proof.
  intros Hemail Hfind Hconf Hactive Hpwd w1 Hown Hnot.
  unfold SessionResource._authenticate. py_unfold.
  unfold getitem, id_of, user_customer.
  rewrite Hemail, Hfind, Hconf, Hactive, Hpwd. simpl. fold w1.
  destruct (is_none (dict_get (session w1) "customer_id")); simpl.
  - by rewrite Hown.
  - destruct (query_get (customers w1) (dict_get (session w1) "customer_id"))
      as [[cid c]|] eqn:Hq; simpl.
    + rewrite bool_decide_eq_false_2 by (by eapply Hnot). simpl.
      by rewrite Hown.
    + by rewrite Hown.
Qed.

Lemma authenticate_without_merge_witness :
  SessionResource._authenticate (H := Fixture.external)
    Fixture.credentials Fixture.plain_world
  = (Ret Fixture.credentials,
     set_session (insert "customer_id" (PInt 10))
       (Fixture.login 2 false Fixture.plain_world)).
Proof.
  apply (authenticate_without_merge (H := Fixture.external)
           Fixture.credentials Fixture.plain_world (PStr "bob@example.org")
           2 Fixture.bob 10
           {| c_user_id := Some 2%Z; c_columns := {[ "shop_id" := PInt 1 ]} |}
           []);
    [reflexivity | vm_compute; reflexivity | reflexivity | reflexivity
    | reflexivity | vm_compute; reflexivity |].
  intros cid c Hq. vm_compute in Hq. discriminate Hq.
Defined.

(** X11: [SessionResource.put] answers 202, 400 or 404, and when it answers 400
    or 404 it has written nothing. *)
Theorem session_put_status `{External} (env : Env) (id : pyval) (w w' : World)
    (r : Response) :
  SessionResource.put env id w = (Ret r, w') →
  (status r = 202 ∨ status r = 400 ∨ status r = 404)%Z ∧
  (status r ≠ 202%Z → w' = w).
Proof.
  unfold SessionResource.put, SessionResource.__change_password,
    SessionResource.__reset_password, try_DataError.
  py_unfold. unfold getitem. intros Hrun.
  repeat (case_match; simplify_eq/=); status_unfold;
    try (split; [auto | (done || (intros _; reflexivity))]; fail).
  all: try (pose proof (_get_response_reads env ∅ w1) as Hread).
  all: repeat match goal with
       | Ha : SessionResource._authenticate _ _ = (Raise (DataError _), _) |- _ =>
           apply authenticate_data_error in Ha as [-> _]
       end.
  all: try (split; [auto | (done || (intros _; reflexivity))]; fail).
Qed.

Lemma session_put_status_witness :
  ∃ r, SessionResource.put (H := Fixture.external)
         (Fixture.env_of (PDict Fixture.wrong_credentials)) PNone Fixture.world
       = (Ret r, Fixture.world) ∧ status r = 400%Z.
Proof.
  assert (∃ r w', SessionResource.put (H := Fixture.external)
                    (Fixture.env_of (PDict Fixture.wrong_credentials)) PNone
                    Fixture.world = (Ret r, w') ∧ status r = 400%Z)
    as (r & w' & Hrun & Hs) by (eexists _, _; split; vm_compute; reflexivity).
  destruct (session_put_status (H := Fixture.external) _ _ _ _ _ Hrun)
    as [_ Hsame].
  rewrite Hsame in Hrun by (rewrite Hs; discriminate). by exists r.
Defined.

(** X12: [SessionResource.post] answers 201 or 400; when it answers 400 nobody
    was registered and nothing was written; an email that is taken is
    answered with 400 and the error on 'email'. *)
Theorem session_post_status `{External} (env : Env) (w : World) :
  (∀ r w', SessionResource.post env w = (Ret r, w') →
           (status r = 201 ∨ status r = 400)%Z ∧
           (status r = 400%Z → w' = w)) ∧
  (∀ data email,
     SessionResource.clean (json (e_request env)) = Ret data →
     data !! "email" = Some email →
     is_unique email w = false →
     SessionResource.post env w =
       (Ret (jsonify_status_code
               (message "email" "This email is already taken")
               http.BAD_REQUEST), w)).
Proof.
  split.
  - intros r w'.
    unfold SessionResource.post, try_DataError.
    py_unfold. unfold getitem. intros Hrun.
    repeat (case_match; simplify_eq/=); status_unfold;
      try (split; [auto | (done || (intros _; reflexivity))]; fail).
    all: exfalso; eapply _get_response_no_data_error; eauto.
  - intros data email Hclean Hemail Hunique.
    unfold SessionResource.post, try_DataError.
    py_unfold. unfold getitem. by rewrite Hclean, Hemail, Hunique.
Qed.

Lemma session_post_status_witness :
  SessionResource.post (H := Fixture.external)
    (Fixture.env_of (PDict Fixture.credentials)) Fixture.world
  = (Ret (jsonify_status_code
            (message (H := Fixture.external) "email" "This email is already taken")
            http.BAD_REQUEST), Fixture.world).
Proof.
  apply (proj2 (session_post_status (H := Fixture.external)
                  (Fixture.env_of (PDict Fixture.credentials)) Fixture.world)
           Fixture.credentials (PStr "bob@example.org"));
    [reflexivity | reflexivity | vm_compute; reflexivity].
Defined.

(** X13: [_get_response] writes nothing; it raises [KeyError] exactly when the
    session has no 'id'; otherwise the response carries the session id, the
    entries of [kwargs] override the computed ones, and without [kwargs]
    the key 'data_language' is present exactly for a logged-in superuser. *)
Theorem get_response_content `{External} (env : Env) (kwargs : pydict)
    (w : World) :
  (SessionResource._get_response env kwargs w).2 = w ∧
  (session w !! "id" = None →
   (SessionResource._get_response env kwargs w).1 = Raise (KeyError "id")) ∧
  (∀ sid, session w !! "id" = Some sid →
     ∃ r, (SessionResource._get_response env kwargs w).1 = Ret r ∧
          (∀ k v, kwargs !! k = Some v → r !! k = Some v) ∧
          (kwargs = ∅ →
           r !! "id" = Some sid ∧
           r !! "is_anonymous" =
             Some (PBool (bool_decide (current_user w = None))) ∧
           r !! "uid" = Some (dict_get (session w) "user_id") ∧
           ("data_language" ∈ dom r ↔
            current_user w ≠ None ∧
            is_superuser w (current_user w) = true))).
Proof.
  split; [apply _get_response_reads|]. split.
  - intros Hid. unfold SessionResource._get_response. py_unfold.
    unfold getitem. by rewrite Hid.
  - intros sid Hid. unfold SessionResource._get_response. py_unfold.
    unfold getitem. rewrite Hid. simpl. eexists. split; [reflexivity|].
    split.
    + intros k v Hk. unfold dict_update. by apply lookup_union_Some_l.
    + intros ->. unfold dict_update. rewrite (left_id_L ∅ (∪)).
      destruct (current_user w) as [uid|] eqn:Hcu; simpl.
      * destruct (is_superuser w (Some uid)) eqn:Hsu; simpl.
        -- split_and!; try done.
           all: try (split; [done|]; intros _; apply elem_of_dom; by eexists).
        -- split_and!; try done.
           all: try (split; [|by intros [_ ?]];
                     intros [x Hx]%elem_of_dom; by vm_compute in Hx).
      * split_and!; try done.
        all: try (split; [|by intros [? _]];
                  intros [x Hx]%elem_of_dom; by vm_compute in Hx).
Qed.

Lemma get_response_content_witness :
  ∃ r, (SessionResource._get_response (H := Fixture.external)
          (Fixture.env_of PNone) ∅ Fixture.admin_world).1 = Ret r ∧
       r !! "id" = Some (PStr "5f2c") ∧
       "data_language" ∈ dom r.
Proof.
  destruct (proj2 (proj2 (get_response_content (H := Fixture.external)
                            (Fixture.env_of PNone) ∅ Fixture.admin_world))
              (PStr "5f2c") eq_refl) as (r & Hr & _ & Hk).
  destruct (Hk eq_refl) as (Hid & _ & _ & Hdl).
  exists r. split; [exact Hr|]. split; [exact Hid|].
  apply Hdl. split; [discriminate | reflexivity].
Defined.

(** ** More on profiles *)

Section profiles.
Context `{External}.

Lemma token_lookup_none (env : Env) :
  no_token env →
  (if truthy (json (e_request env))
   then lift (json_lookup (json (e_request env)) "token")
   else mret None) = (mret None : Py (option pyval)).
Proof.
  intros Hno. destruct (truthy (json (e_request env))) eqn:Ht; [|done].
  by rewrite (Hno Ht).
Qed.

(** Without a token [get_object] reads only. *)
Lemma get_object_without_token (env : Env) (id : pyval) (w : World) :
  no_token env →
  ProfileResource.get_object env id w =
    (if is_superuser w (current_user w)
     then r ← get_or_404 (users w) id; Ret (Some r.1)
     else Ret (g_user env), w).
Proof.
  intros Hno. unfold ProfileResource.get_object.
  rewrite (token_lookup_none env Hno). py_unfold.
  destruct (is_superuser w (current_user w)); [|done].
  by destruct (get_or_404 (users w) id).
Qed.
End profiles.

(** X14: Without a token in the body, [ProfileResource.get_object] writes
    nothing; for a caller who is no superuser it returns [g.user] whatever
    the id; for a superuser it returns the user with the given key and
    aborts with 404 when there is none. *)
Theorem profile_get_object_without_token `{External} (env : Env) (id : pyval)
    (w : World) :
  no_token env →
  (ProfileResource.get_object env id w).2 = w ∧
  (is_superuser w (current_user w) = false →
   (ProfileResource.get_object env id w).1 = Ret (g_user env)) ∧
  (is_superuser w (current_user w) = true →
   match query_get (users w) id with
   | Some (uid, _) => (ProfileResource.get_object env id w).1 = Ret (Some uid)
   | None => (ProfileResource.get_object env id w).1
             = Raise (HTTPException http.NOT_FOUND)
   end).
Proof.
  intros Hno. rewrite (get_object_without_token env id w Hno).
  split_and!.
  - done.
  - by intros ->.
  - intros ->. unfold get_or_404.
    by destruct (query_get (users w) id) as [[uid u]|].
Qed.

Lemma no_token_profile_body : no_token (Fixture.env_of Fixture.profile_body).
Proof. intros _. reflexivity. Defined.

Lemma profile_get_object_without_token_witness :
  (ProfileResource.get_object (H := Fixture.external)
     (Fixture.env_of Fixture.profile_body) (PInt 1) Fixture.bob_world).1
  = Ret None.
Proof.
  destruct (profile_get_object_without_token (H := Fixture.external)
              (Fixture.env_of Fixture.profile_body) (PInt 1)
              Fixture.bob_world no_token_profile_body) as (_ & Hown & _).
  apply Hown. reflexivity.
Defined.

(** X15: Without a token in the body, [_change_role] writes nothing unless the
    caller is a superuser; it changes no table but the users (roles,
    customers, carts, addresses, bank accounts, the session and the current
    user are as before) and no user but the one it loaded; and when it
    returns, it returns the value it was given, and the user it loaded has
    the role named by 'role_id'. *)
Theorem change_role_effect `{External} (env : Env) (id : pyval)
    (value : pydict) (w w' : World) (out : res pydict) :
  no_token env →
  ProfileResource._change_role env id value w = (out, w') →
  (is_superuser w (current_user w) = false → w' = w) ∧
  (roles w' = roles w ∧ customers w' = customers w ∧ carts w' = carts w ∧
   addresses w' = addresses w ∧ bank_accounts w' = bank_accounts w ∧
   session w' = session w ∧ current_user w' = current_user w) ∧
  (∀ uid, (ProfileResource.get_object env id w).1 ≠ Ret (Some uid) →
          users w' !! uid = users w !! uid) ∧
  (∀ v, out = Ret v →
        v = value ∧
        ∀ rid, value !! "role_id" = Some rid →
               ∃ user role,
                 (ProfileResource.get_object env id w).1 = Ret user ∧
                 query_get (roles w) rid = Some role ∧
                 ProfileResource.has_role w' user role.1 = true).
Proof.
  intros Hno. unfold ProfileResource._change_role.
  unfold mbind at 1. unfold Py_bind at 1.
  rewrite (get_object_without_token env id w Hno).
  py_unfold. unfold getitem, contains, ProfileResource.roles_append. py_unfold.
  intros Hrun.
  destruct (is_superuser w (current_user w)) eqn:Hsu.
  - (* a superuser *)
    unfold mbind, res_bind, get_or_404 in *.
    destruct (query_get (users w) id) as [[uid u]|] eqn:Hu; simpl in Hrun;
      [|by simplify_eq].
    destruct (value !! "role_id") as [rid|] eqn:Hrid; simpl in Hrun.
    2: { simplify_eq. split_and!; try done. intros v [= <-]. done. }
    destruct (query_get (roles w) rid) as [[z role]|] eqn:Hz; simpl in Hrun;
      [|by simplify_eq].
    destruct (ProfileResource.has_role w (Some uid) z) eqn:Hhas;
      simpl in Hrun.
    + pose proof Hhas as Hhas'. unfold ProfileResource.has_role in Hhas'.
      rewrite Hhas' in Hrun.
      simplify_eq. split; [done|]. split; [done|]. split; [done|].
      intros v [= <-]. split; [done|].
      intros rid' [= <-]. exists (Some uid), (z, role). by rewrite Hz.
    + pose proof Hhas as Hhas'. unfold ProfileResource.has_role in Hhas'.
      rewrite Hhas', Hsu in Hrun. simplify_eq. split_and!; try done.
      { intros uid' Hne. simpl. rewrite lookup_alter_ne; [done|].
        intros <-. by apply Hne. }
      intros v [= <-]. split; [done|].
      intros rid' [= <-]. exists (Some uid), (z, role). rewrite Hz.
      split_and!; try done. simpl.
      assert (users w !! uid = Some u) as Hrow.
      { unfold query_get in Hu. destruct id; try discriminate.
        destruct (users w !! z0) eqn:Hl; simpl in Hu; by simplify_eq. }
      rewrite lookup_alter_eq, Hrow. simpl.
      apply bool_decide_eq_true. set_solver.
  - (* no superuser *)
    assert (w' = w) as ->.
    { simpl in Hrun. repeat (case_match; simplify_eq/=); try done. }
    split_and!; try done.
    intros v ->. simpl in Hrun.
    destruct (value !! "role_id") as [rid|] eqn:Hrid; simpl in Hrun.
    2: { by simplify_eq. }
    unfold get_or_404 in Hrun.
    destruct (query_get (roles w) rid) as [[z role]|] eqn:Hz; simpl in Hrun;
      [|by simplify_eq].
    destruct (ProfileResource.has_role w (g_user env) z) eqn:Hhas;
      simpl in Hrun.
    + simplify_eq. split; [done|]. intros rid' [= <-].
      by exists (g_user env), (z, role).
    + rewrite Hsu in Hrun. by simplify_eq.
Qed.

Lemma change_role_effect_witness :
  ∃ w', ProfileResource._change_role (H := Fixture.external)
          (Fixture.env_of Fixture.profile_body) (PInt 2)
          {[ "role_id" := PInt 2 ]} Fixture.admin_world
        = (Ret {[ "role_id" := PInt 2 ]}, w') ∧
        ProfileResource.has_role w' (Some 2%Z) 2 = true ∧
        customers w' = customers Fixture.admin_world ∧
        bank_accounts w' = bank_accounts Fixture.admin_world ∧
        users w' !! 1%Z = users Fixture.admin_world !! 1%Z.
Proof.
  assert (∃ w', ProfileResource._change_role (H := Fixture.external)
                  (Fixture.env_of Fixture.profile_body) (PInt 2)
                  {[ "role_id" := PInt 2 ]} Fixture.admin_world
                = (Ret {[ "role_id" := PInt 2 ]}, w')) as [w' Hrun]
    by (eexists; vm_compute; reflexivity).
  destruct (change_role_effect (H := Fixture.external) _ _ _ _ _ _
              no_token_profile_body Hrun)
    as (_ & (_ & Hc & _ & _ & Hb & _) & Hother & Hret).
  exists w'. split; [exact Hrun|]. split; [|split; [exact Hc|split]].
  - destruct (Hret _ eq_refl) as (_ & Hrole).
    destruct (Hrole (PInt 2) eq_refl) as (user & role & Hu & Hq & Hhas).
    vm_compute in Hu. injection Hu as <-.
    vm_compute in Hq. injection Hq as <-. exact Hhas.
  - exact Hb.
  - apply Hother. intros Heq. vm_compute in Heq. discriminate Heq.
Defined.

(** X16: Whenever [_cmp_pwds] returns a value under 'password' for a mapping
    that has one of the two keys, it is the result of [encrypt_password] on
    a password of at least six symbols (code points, not bytes) that equals
    the confirmation; the confirmation itself is never passed on. *)
Theorem cmp_pwds_password_is_encrypted `{External} (value : pydict)
    (r : gmap string checked) :
  ProfileResource._cmp_pwds value = Ret r →
  is_Some (value !! "password") ∨ is_Some (value !! "confirmation") →
  (∀ v, r !! "confirmation" ≠ Some (Value v)) ∧
  (∀ v, r !! "password" = Some (Value v) →
        ∃ p c n, value !! "password" = Some p ∧
                 value !! "confirmation" = Some c ∧
                 py_len p = Ret n ∧ (6 ≤ n)%nat ∧
                 (∀ s, p = PStr s → (6 ≤ unicode_len s)%nat) ∧
                 py_eqb p c = true ∧
                 encrypt_password p = Ret v).
Proof.
  unfold ProfileResource._cmp_pwds, contains, getitem, mbind, res_bind.
  intros Hr Hkeys.
  destruct (value !! "password") as [p|] eqn:Hp;
    destruct (value !! "confirmation") as [c|] eqn:Hc; simpl in Hr;
    try (by destruct Hkeys as [[? ?]|[? ?]]).
  - destruct (py_len p) as [n|] eqn:Hn; [|done].
    destruct (Nat.ltb_spec n 6); simplify_eq.
    { split; intros v Hv; by vm_compute in Hv. }
    destruct (py_eqb p c) eqn:Hpc; simpl in Hr; simplify_eq.
    2: { split; intros v Hv; by vm_compute in Hv. }
    destruct (encrypt_password p) as [e|] eqn:He; simplify_eq.
    split.
    + intros v Hv. by vm_compute in Hv.
    + intros v Hv. rewrite lookup_singleton_eq in Hv. simplify_eq.
      exists p, c, n. split_and!; try done.
      intros s ->. simpl in Hn. by simplify_eq.
  - destruct (py_len p) as [n|]; [|done].
    destruct (n <? 6)%nat; simplify_eq.
    split; intros v Hv; by vm_compute in Hv.
Qed.

Lemma cmp_pwds_password_is_encrypted_witness :
  ∃ r, ProfileResource._cmp_pwds (H := Fixture.external)
         (<[ "password" := PStr "пароль" ]> {[ "confirmation" := PStr "пароль" ]})
       = Ret r ∧
       r !! "password" = Some (Value (PStr "hash:пароль")) ∧
       r !! "confirmation" = None.
Proof.
  assert (∃ r, ProfileResource._cmp_pwds (H := Fixture.external)
                 (<[ "password" := PStr "пароль" ]>
                    {[ "confirmation" := PStr "пароль" ]}) = Ret r ∧
               r !! "password" = Some (Value (PStr "hash:пароль")) ∧
               r !! "confirmation" = None)
    as (r & Hr & Hp & Hc) by (eexists; split_and!; vm_compute; reflexivity).
  destruct (cmp_pwds_password_is_encrypted (H := Fixture.external) _ r Hr)
    as [_ Henc]; [left; eexists; reflexivity|].
  destruct (Henc _ Hp) as (p & c & n & _).
  by exists r.
Defined.

(** The length is counted in symbols: a password of three symbols is too
    short, though its encoding takes nine bytes. *)
Lemma cmp_pwds_counts_symbols `{External} :
  String.length "日本語" = 9 ∧
  py_len (PStr "日本語") = Ret 3 ∧
  ProfileResource._cmp_pwds
    (<[ "password" := PStr "日本語" ]> {[ "confirmation" := PStr "日本語" ]}) =
    Ret {[ "password" :=
             Error (PStr (lazy_gettext
               "Passwords should be more than 6 symbols length")) ]}.
Proof. split_and!; reflexivity. Qed.

(** ** Address keys of a serialized profile *)

Lemma string_app_inj (p x y : string) : p +:+ x = p +:+ y → x = y.
Proof. induction p as [|c p IH]; simpl; [done|]. intros [= Hxy]. auto. Qed.

Global Instance prefix_inj (prefix : string) :
  Inj (=) (=) (λ k : string, prefix +:+ "_" +:+ k).
Proof. intros x y Hxy. by apply string_app_inj, string_app_inj in Hxy. Qed.

Lemma fst_rekeyed {A} (f : string → string) (l : list (string * A)) :
  ((λ kv : string * A, (f kv.1, kv.2)) <$> l).*1 = f <$> l.*1.
Proof. induction l as [|x l IH]; simpl; [done | by f_equal]. Qed.

Lemma lookup_address_prefix (a : pydict) (prefix k : string) :
  ProfileResource.__add_address_prefix (Some a) prefix !! (prefix +:+ "_" +:+ k)
  = a !! k.
Proof.
  unfold ProfileResource.__add_address_prefix.
  assert (NoDup ((λ kv : string * pyval, (prefix +:+ "_" +:+ kv.1, kv.2))
                   <$> map_to_list a).*1) as Hnd.
  { rewrite (fst_rekeyed (λ k, prefix +:+ "_" +:+ k)).
    apply (NoDup_fmap_2 _). apply NoDup_fst_map_to_list. }
  destruct (a !! k) as [v|] eqn:Hk.
  - apply elem_of_list_to_map_1; [done|].
    apply list_elem_of_fmap. exists (k, v). split; [done|].
    by apply elem_of_map_to_list.
  - apply not_elem_of_list_to_map_1.
    rewrite (fst_rekeyed (λ k, prefix +:+ "_" +:+ k)).
    intros (k' & Hkk & Hin)%list_elem_of_fmap.
    apply string_app_inj, string_app_inj in Hkk. subst k'.
    apply list_elem_of_fmap in Hin as ([k'' v'] & -> & Hin).
    apply elem_of_map_to_list in Hin. simpl in Hk. congruence.
Qed.

(** X17: In the output of [ProfileResource.serialize] for a known caller and
    user, every field of the delivery address stands under its name
    prefixed with 'delivery_' and every field of the billing address under
    its name prefixed with 'billing_', whatever the projection of the user
    has under these keys. *)
Theorem serialize_address_fields (g_user instance : UserView) :
  is_anonymous g_user = false →
  is_anonymous instance = false →
  (∀ a k v, delivery_address instance = Some a → a !! k = Some v →
            ProfileResource.serialize g_user instance !! ("delivery_" +:+ k)
            = Some v) ∧
  (∀ a k v, billing_address instance = Some a → a !! k = Some v →
            ProfileResource.serialize g_user instance !! ("billing_" +:+ k)
            = Some v).
Proof.
  intros Hg Hi. unfold ProfileResource.serialize. rewrite Hg, Hi. simpl.
  unfold dict_update. split.
  - intros a k v -> Hk. apply lookup_union_Some_l.
    exact (eq_trans (lookup_address_prefix a "delivery" k) Hk).
  - intros a k v -> Hk. rewrite lookup_union_r.
    + apply lookup_union_Some_l.
      exact (eq_trans (lookup_address_prefix a "billing" k) Hk).
    + apply not_elem_of_dom. intros [k' Hk']%elem_of_dom_address_prefix.
      simpl in Hk'. discriminate.
Qed.

Lemma serialize_address_fields_witness :
  ProfileResource.serialize Fixture.resident Fixture.resident !! "billing_city"
  = Some (PStr "Kiel").
Proof.
  destruct (serialize_address_fields Fixture.resident Fixture.resident
              eq_refl eq_refl) as [_ Hb].
  exact (Hb {[ "city" := PStr "Kiel" ]} "city" (PStr "Kiel") eq_refl eq_refl).
Defined.


(** ** Request data *)

(** X18: [_request_data] raises nothing but [DataError] and the abort with 400;
    it checks [request.json] when that is truthy and the parsed raw body
    otherwise. *)
Theorem request_data_outcomes `{External} (schema : Schema) (env : Env) :
  (∀ e, _request_data schema env = Raise e →
        (∃ error, e = DataError error) ∨ e = HTTPException http.BAD_REQUEST) ∧
  (truthy (json (e_request env)) = true →
   ∀ d, _request_data schema env = Ret d ↔
        check schema (json (e_request env)) = Ret d) ∧
  (truthy (json (e_request env)) = false →
   ∀ d, _request_data schema env = Ret d ↔
        ∃ body, json_loads (data (e_request env)) = Ret body ∧
                check schema body = Ret d).
Proof.
  unfold _request_data, mbind, res_bind, abort. split_and!.
  - intros e He. repeat (case_match; simplify_eq/=); eauto.
  - intros -> d. split; intros Hd; repeat (case_match; simplify_eq/=); eauto.
  - intros -> d. split.
    + intros Hd. repeat (case_match; simplify_eq/=); eauto.
    + intros (body & -> & ->). done.
Qed.

Lemma request_data_outcomes_witness :
  _request_data (H := Fixture.external) AddressValidation
    (Fixture.env_of (PDict ∅)) ≠ Raise TypeError.
Proof.
  intros Hr.
  destruct (proj1 (request_data_outcomes (H := Fixture.external)
                     AddressValidation (Fixture.env_of (PDict ∅))) _ Hr)
    as [[? ?] | ?]; discriminate.
Defined.

(** ** Addresses *)

(** X19: [AddressResource.post] creates the address before it looks for the
    customer: for an anonymous caller whose session names no customer the
    request is aborted with 400 and the address stays created. *)
Theorem address_post_creates_first `{External} (env : Env) (w w1 : World)
    (data : pydict) (address : Z) :
  _request_data AddressValidation env = Ret data →
  model_create MAddress (delete "type" data) w = (Ret address, w1) →
  current_user w1 = None →
  dict_get (session w1) "customer_id" = PNone →
  AddressResource.post env w = (Raise (HTTPException http.BAD_REQUEST), w1).
Proof.
  intros Hdata Hcreate Hcu Hsess.
  unfold AddressResource.post, try_DataError, _customer. py_unfold.
  rewrite Hdata, Hcreate, Hcu, Hsess. reflexivity.
Qed.

Lemma address_post_creates_first_witness :
  ∃ w1, AddressResource.post (H := Fixture.external)
          (Fixture.env_of Fixture.address_body) Fixture.plain_world
        = (Raise (HTTPException http.BAD_REQUEST), w1) ∧
        is_Some (addresses w1 !! 1%Z) ∧
        addresses Fixture.plain_world = ∅.
Proof.
  eexists. split; [|split; [|reflexivity]].
  - eapply (address_post_creates_first (H := Fixture.external)
              (Fixture.env_of Fixture.address_body) Fixture.plain_world);
      [vm_compute; reflexivity | vm_compute; reflexivity | reflexivity
      | reflexivity].
  - eexists. vm_compute. reflexivity.
Defined.

(** ** Customers *)

(** X22: [CustomerResource.post] writes nothing for an anonymous caller without
    customer: when the session names no customer the request is aborted
    with 400, and when it names a customer that does not exist the update
    of the missing instance raises [AttributeError]. *)
Theorem customer_post_without_customer `{External} (env : Env) (w : World)
    (data : pydict) :
  _request_data CustomerValidation env = Ret data →
  current_user w = None →
  (dict_get (session w) "customer_id" = PNone →
   CustomerResource.post env w = (Raise (HTTPException http.BAD_REQUEST), w)) ∧
  (is_none (dict_get (session w) "customer_id") = false →
   query_get (customers w) (dict_get (session w) "customer_id") = None →
   CustomerResource.post env w = (Raise (AttributeError "update"), w)).
Proof.
  intros Hdata Hcu.
  unfold CustomerResource.post, try_DataError, _customer, instance_of.
  py_unfold. rewrite Hdata, Hcu. cbv beta. split.
  - by intros ->.
  - intros Hn Hq. rewrite Hn. cbn [negb]. by rewrite Hq.
Qed.

Lemma customer_post_without_customer_witness :
  CustomerResource.post (H := Fixture.external)
    (Fixture.env_of Fixture.customer_body) Fixture.plain_world
  = (Raise (HTTPException http.BAD_REQUEST), Fixture.plain_world).
Proof.
  refine (proj1 (customer_post_without_customer (H := Fixture.external)
                   (Fixture.env_of Fixture.customer_body) Fixture.plain_world
                   _ _ _) _);
    [vm_compute; reflexivity | reflexivity | reflexivity].
Defined.

(** ** More on bank accounts *)

(** X20: [BankAccountResource.post] stores the account under the key of the
    current user whatever 'user_id' the body gives: the one write of the
    handler is [model.create] on the cleaned data with 'user_id' set to
    the key of the current user, and when that returns the handler answers
    201 with the created account; two bodies that clean to the same data
    but for 'user_id' have the same outcome; and for an anonymous caller
    nothing is created. *)
Theorem bank_account_post_owner `{External} (env env' : Env) (w : World)
    (d d' : pydict) :
  truthy (json (e_request env)) = true →
  truthy (json (e_request env')) = true →
  check BankAccountValidation (json (e_request env)) = Ret d →
  check BankAccountValidation (json (e_request env')) = Ret d' →
  delete "user_id" d = delete "user_id" d' →
  (∀ uid, current_user w = Some uid →
     ∃ stored : pydict,
       stored !! "user_id" = Some (PInt uid) ∧
       (∀ k, k ≠ "user_id" → stored !! k = d !! k) ∧
       (BankAccountResource.post env w).2 =
         (model_create MBankAccount stored w).2 ∧
       ∀ instance w1,
         model_create MBankAccount stored w = (Ret instance, w1) →
         BankAccountResource.post env w =
           (Ret (jsonify_status_code
                   (PDict (model_serialize MBankAccount instance w1))
                   http.CREATED), w1)) ∧
  BankAccountResource.post env w = BankAccountResource.post env' w ∧
  (current_user w = None →
   BankAccountResource.post env w = (Raise (AttributeError "id"), w)).
Proof.
  intros Ht Ht' Hd Hd' Heq.
  unfold BankAccountResource.post, try_DataError. py_unfold.
  rewrite Ht, Ht', Hd, Hd'.
  split_and!.
  - intros uid ->. exists (<[ "user_id" := PInt uid ]> d). split_and!.
    + by rewrite lookup_insert_eq.
    + intros k Hk. by rewrite lookup_insert_ne.
    + destruct (model_create MBankAccount (<[ "user_id" := PInt uid ]> d) w)
        as [[instance|[]] w1]; reflexivity.
    + intros instance w1 ->. reflexivity.
  - destruct (current_user w) as [uid|]; [|done].
    assert (<[ "user_id" := PInt uid ]> d = <[ "user_id" := PInt uid ]> d')
      as ->; [|done].
    by rewrite <- (insert_delete_eq d), <- (insert_delete_eq d'), Heq.
  - by intros ->.
Qed.

Lemma bank_account_post_owner_witness :
  ∃ r w1,
    BankAccountResource.post (H := Fixture.external)
      (Fixture.env_of Fixture.forged_account_body) Fixture.bob_world
    = (Ret r, w1) ∧
    status r = http.CREATED ∧
    bank_accounts w1 !! 2%Z =
      Some (<[ "user_id" := PInt 2 ]> Fixture.account).
Proof.
  destruct (bank_account_post_owner (H := Fixture.external)
              (Fixture.env_of Fixture.forged_account_body)
              (Fixture.env_of Fixture.account_body) Fixture.bob_world
              (<[ "user_id" := PInt 1 ]> Fixture.account) Fixture.account)
    as (Hown & _ & _);
    [reflexivity | reflexivity | vm_compute; reflexivity
    | vm_compute; reflexivity | vm_compute; reflexivity |].
  destruct (Hown 2%Z eq_refl) as (stored & Hu & Hk & _ & Hpost).
  eexists _, _. split; [apply Hpost; reflexivity|].
  split; [reflexivity|].
  simpl. rewrite lookup_insert_eq. f_equal. apply map_eq. intros k.
  destruct (decide (k = "user_id")) as [->|Hne].
  - by rewrite Hu, lookup_insert_eq.
  - rewrite (Hk k Hne), !lookup_insert_ne by done. reflexivity.
Defined.

(** X21: [BankAccountResource.get_objects] reads only; for a caller who is no
    superuser the query is restricted to the caller's own accounts whatever
    [request.args] and the keyword arguments say; for a superuser the
    'user_id' of [request.args] overrides the keyword argument. *)
Theorem bank_account_get_objects_owner `{External} (env : Env)
    (kwargs : pydict) (w : World) :
  (BankAccountResource.get_objects env kwargs w).2 = w ∧
  (is_superuser w (current_user w) = false →
   ∀ q, (BankAccountResource.get_objects env kwargs w).1 = Ret q →
        ∃ uid, current_user w = Some uid ∧
               q !! "user_id" = Some (PInt uid) ∧
               ∀ k, k ≠ "user_id" → q !! k = kwargs !! k) ∧
  (is_superuser w (current_user w) = true →
   ∃ q, (BankAccountResource.get_objects env kwargs w).1 = Ret q ∧
        (∀ v, args (e_request env) !! "user_id" = Some v →
              q !! "user_id" = Some (PStr v)) ∧
        (args (e_request env) !! "user_id" = None → q = kwargs)).
Proof.
  unfold BankAccountResource.get_objects. py_unfold. split_and!.
  - by repeat (case_match; simplify_eq/=).
  - intros -> q Hq. simpl in Hq.
    destruct (current_user w) as [uid|]; [|discriminate].
    simpl in Hq. simplify_eq. exists uid. split_and!; [done|..].
    + by rewrite lookup_insert_eq.
    + intros k Hk. rewrite lookup_insert_ne by done.
      destruct (args (e_request env) !! "user_id"); [|done].
      by rewrite lookup_insert_ne.
  - intros ->. simpl. eexists. split; [reflexivity|]. split.
    + intros v ->. by rewrite lookup_insert_eq.
    + by intros ->.
Qed.

Lemma bank_account_get_objects_owner_witness :
  ∃ q, (BankAccountResource.get_objects (H := Fixture.external)
          (Fixture.env_of PNone) {[ "user_id" := PInt 1 ]} Fixture.bob_world).1
       = Ret q ∧ q !! "user_id" = Some (PInt 2).
Proof.
  assert (∃ q, (BankAccountResource.get_objects (H := Fixture.external)
                  (Fixture.env_of PNone) {[ "user_id" := PInt 1 ]}
                  Fixture.bob_world).1 = Ret q) as [q Hq]
    by (eexists; vm_compute; reflexivity).
  exists q. split; [exact Hq|].
  destruct (bank_account_get_objects_owner (H := Fixture.external)
              (Fixture.env_of PNone) {[ "user_id" := PInt 1 ]}
              Fixture.bob_world) as (_ & Hown & _).
  destruct (Hown eq_refl q Hq) as (uid & Hcu & Huid & _).
  vm_compute in Hcu. injection Hcu as <-. exact Huid.
Defined.

(** ** More on the decorators *)

(** X5: With a truthy body, [method_wrapper] leaves the world as the method
    leaves it, wraps what the method returns into a response with the
    given status, answers a [DataError] of the method with its error
    mapping and 400, and lets every other exception pass. *)
Theorem method_wrapper_outcomes (http_status : Z) (meth : pyval → Py pyval)
    (env : Env) (w : World) :
  truthy (json (e_request env)) = true →
  (method_wrapper http_status meth env w).2 = (meth (json (e_request env)) w).2 ∧
  (method_wrapper http_status meth env w).1 =
    match (meth (json (e_request env)) w).1 with
    | Ret r => Ret (jsonify_status_code r http_status)
    | Raise (DataError e) =>
        Ret (jsonify_status_code (DataError_as_dict e) http.BAD_REQUEST)
    | Raise e => Raise e
    end.
Proof.
  intros Ht. unfold method_wrapper, try_DataError. py_unfold. rewrite Ht.
  destruct (meth (json (e_request env)) w) as [[r|[]] w']; done.
Qed.

Lemma method_wrapper_outcomes_witness :
  (method_wrapper http.CREATED (λ data, mret data)
     (Fixture.env_of Fixture.bank_body) Fixture.world).1
  = Ret (jsonify_status_code Fixture.bank_body http.CREATED).
Proof.
  destruct (method_wrapper_outcomes http.CREATED (λ data, mret data)
              (Fixture.env_of Fixture.bank_body) Fixture.world eq_refl)
    as [_ Hr].
  exact Hr.
Defined.

(** X6: A falsy body, such as the empty object, is aborted with 400 before
    anything is checked or written, by [method_wrapper] and by the handlers
    that start with the same guard. *)
Theorem falsy_body_aborts `{External} (env : Env) (w : World) :
  truthy (json (e_request env)) = false →
  (∀ http_status meth,
     method_wrapper http_status meth env w =
       (Raise (HTTPException http.BAD_REQUEST), w)) ∧
  (∀ id, ProfileResource.put env id w =
           (Raise (HTTPException http.BAD_REQUEST), w)) ∧
  BankAccountResource.post env w = (Raise (HTTPException http.BAD_REQUEST), w).
Proof.
  intros Ht. split_and!.
  - intros. by apply method_wrapper_falsy_body.
  - intros id. by apply (run_falsy_body (ProfilePut id)).
  - by apply (run_falsy_body BankAccountPost).
Qed.

Lemma falsy_body_aborts_witness :
  BankAccountResource.post (H := Fixture.external) (Fixture.env_of (PDict ∅))
    Fixture.bob_world
  = (Raise (HTTPException http.BAD_REQUEST), Fixture.bob_world).
Proof.
  destruct (falsy_body_aborts (H := Fixture.external)
              (Fixture.env_of (PDict ∅)) Fixture.bob_world)
    as (_ & _ & Hb); [reflexivity|].
  exact Hb.
Defined.

Lemma string_app_slash_inj (a b : string) : a +:+ "/" = b +:+ "/" → a = b.
Proof.
  revert b. induction a as [|x a IH]; intros [|y b]; simpl; try done.
  - intros [= _ Hb]. by destruct b.
  - intros [= _ Ha]. by destruct a.
  - intros [= -> Hab]. f_equal. by apply IH.
Qed.

(** X7: Two resources registered through [api_resource] get the same
    collection URL only if they have the same endpoint. *)
Theorem api_resource_collection_url_inj (bp1 bp2 : Blueprint)
    (e1 e2 : string) (pk_def1 pk_def2 : list (string * option pytype))
    (wrapper1 wrapper2 : string → Blueprint * string) (cls1 cls2 : string) :
  api_resource bp1 e1 pk_def1 = Ret wrapper1 →
  api_resource bp2 e2 pk_def2 = Ret wrapper2 →
  rule <$> (wrapper1 cls1).1 !! length bp1 =
    rule <$> (wrapper2 cls2).1 !! length bp2 →
  e1 = e2.
Proof.
  unfold api_resource, add_url_rule.
  destruct pk_def1 as [|[pk1 ty1] ?]; [done|].
  destruct pk_def2 as [|[pk2 ty2] ?]; [done|].
  intros [= <-] [= <-]. simpl.
  rewrite <- !app_assoc.
  rewrite (lookup_app_r bp1), (lookup_app_r bp2) by lia.
  rewrite !Nat.sub_diag. simpl. intros [= Hrule].
  by apply string_app_slash_inj.
Qed.

Lemma api_resource_collection_url_inj_witness :
  ∃ w1 w2, api_resource [] "roles" [("id", None)] = Ret w1 ∧
           api_resource [] "roles" [("pk", None)] = Ret w2 ∧
           rule <$> (w1 "A").1 !! 0 = rule <$> (w2 "B").1 !! 0 ∧
           "roles" = "roles".
Proof.
  eexists _, _. split; [reflexivity|]. split; [reflexivity|].
  split; [reflexivity|].
  eapply (api_resource_collection_url_inj [] [] "roles" "roles"
            [("id", None)] [("pk", None)] _ _ "A" "B");
    reflexivity.
Defined.

